(** * ya-webadb: scrcpy 1.16 options, video stream decoder and
      subprocess protocol selection

    A shallow embedding of
    - [libraries/scrcpy/src/options/1_16/index.ts]
      ([CodecOptions], [ScrcpyOptions1_16], [VideoPacket], ...),
    - the subprocess module ([AdbSubprocess.createProtocol]) and its
      predecessor ([AdbChildProcess.createShell]).

    JavaScript values are kept as the runtime has them: an enum member is
    its raw string or number, an absent key of a [Partial<...>] object is
    [undefined], and [a || b] tests truthiness.  Numbers are the integers
    the option fields and the parameter-set parser carry, held in [Z]. *)

From Stdlib Require Import ZArith List String Ascii Bool Lia.
From Stdlib Require Import DecimalString Strings.Byte.
From Stdlib Require DecimalPos DecimalZ.
Import ListNotations.

Open Scope string_scope.
Open Scope Z_scope.
Open Scope list_scope.

(* ================================================================= *)
(** ** Bytes *)

Definition bytes : Type := list byte.

Definition Z_of_byte (b : byte) : Z := Z.of_N (Byte.to_N b).

(** [DataView.setUint8]: the value is taken modulo 256. *)
Definition byte_of_Z (z : Z) : byte :=
  match Byte.of_N (Z.to_N (z mod 256)) with
  | Some b => b
  | None => x00
  end.

(* ================================================================= *)
(** ** Exceptions *)

Inductive Exception : Type :=
| BufferedStreamEndedError
| Error (message : string).

(** A computation that returns or throws. *)
Definition Throws (A : Type) : Type := (Exception + A)%type.


(* ================================================================= *)
(** ** Enumerations of the options module *)

Inductive ScrcpyLogLevel : Type :=
| Verbose | Debug | Info | Warn | LogError.

Definition ScrcpyLogLevel_value (l : ScrcpyLogLevel) : string :=
  match l with
  | Verbose => "verbose"
  | Debug => "debug"
  | Info => "info"
  | Warn => "warn"
  | LogError => "error"
  end.

Inductive ScrcpyScreenOrientation : Type :=
| Initial | Unlocked | Portrait | Landscape | PortraitFlipped | LandscapeFlipped.

Definition ScrcpyScreenOrientation_value (o : ScrcpyScreenOrientation) : Z :=
  match o with
  | Initial => -2
  | Unlocked => -1
  | Portrait => 0
  | Landscape => 1
  | PortraitFlipped => 2
  | LandscapeFlipped => 3
  end.

Definition ScrcpyLogLevel_eqb (a b : ScrcpyLogLevel) : bool :=
  String.eqb (ScrcpyLogLevel_value a) (ScrcpyLogLevel_value b).

Definition ScrcpyScreenOrientation_eqb (a b : ScrcpyScreenOrientation) : bool :=
  Z.eqb (ScrcpyScreenOrientation_value a) (ScrcpyScreenOrientation_value b).

(* ================================================================= *)
(** ** CodecOptions *)

(** [Partial<CodecOptionsInit>]: the own entries of the object in
    insertion order, which is the order [Object.entries] walks them in.
    A key that is present with value [undefined] is an entry [(key, None)]. *)
Record CodecOptions : Type := mkCodecOptions {
  codec_value : list (string * option Z)
}.

(** A number in a template literal. *)
Definition number_to_string (n : Z) : string :=
  NilZero.string_of_int (Z.to_int n).

Definition CodecOptions_toOptionValue (c : CodecOptions) : option string :=
  let entries :=
    filter (fun '(key, value) =>
              match value with Some _ => true | None => false end)
           (codec_value c) in
  match entries with
  | [] => None
  | _ =>
    Some (String.concat ","
            (map (fun '(key, value) =>
                    (key ++ "=" ++
                     match value with
                     | Some v => number_to_string v
                     | None => "undefined"
                     end)%string) entries))
  end.

(* ================================================================= *)
(** ** Option values as the runtime sees them *)

Inductive JsValue : Type :=
| JsUndefined
| JsBoolean (b : bool)
| JsNumber (n : Z)
| JsString (s : string)
| JsCodecOptions (c : CodecOptions).

(** Truthiness, as tested by [||] and [if]. *)
Definition truthy (v : JsValue) : bool :=
  match v with
  | JsUndefined => false
  | JsBoolean b => b
  | JsNumber n => negb (n =? 0)
  | JsString s => negb (String.eqb s "")
  | JsCodecOptions _ => true
  end.

(** [a || b] *)
Definition js_or (a b : JsValue) : JsValue :=
  if truthy a then a else b.

(** Modelled from the spec: [toScrcpyOptionValue] of [options/common.ts],
    which is not among the sources.  "render per type (enum -> raw value;
    boolean -> literal token; number -> decimal string; CodecOptions -> its
    own encoding, or an unset placeholder when empty); emit ... using the
    placeholder for genuinely absent values". *)
Definition toScrcpyOptionValue (value : JsValue) (empty : string) : string :=
  match value with
  | JsUndefined => empty
  | JsBoolean true => "true"
  | JsBoolean false => "false"
  | JsNumber n => number_to_string n
  | JsString s => s
  | JsCodecOptions c =>
    match CodecOptions_toOptionValue c with
    | Some s => s
    | None => empty
    end
  end.

(* ================================================================= *)
(** ** ScrcpyOptionsInit1_16 *)

(** [Partial<ScrcpyOptionsInit1_16>]: every key may be absent. *)
Record ScrcpyOptionsInit1_16 : Type := mkInit {
  logLevel : option ScrcpyLogLevel;
  maxSize : option Z;
  bitRate : option Z;
  maxFps : option Z;
  lockVideoOrientation : option ScrcpyScreenOrientation;
  tunnelForward : option bool;
  crop : option string;
  sendFrameMeta : option bool;
  control : option bool;
  displayId : option Z;
  showTouches : option bool;
  stayAwake : option bool;
  codecOptions : option CodecOptions;
  encoderName : option string
}.

(** The empty object [{}]. *)
Definition empty_init : ScrcpyOptionsInit1_16 :=
  mkInit None None None None None None None None None None None None None None.

(** [keyof ScrcpyOptionsInit1_16] *)
Inductive OptionKey : Type :=
| Key_logLevel | Key_maxSize | Key_bitRate | Key_maxFps
| Key_lockVideoOrientation | Key_tunnelForward | Key_crop
| Key_sendFrameMeta | Key_control | Key_displayId | Key_showTouches
| Key_stayAwake | Key_codecOptions | Key_encoderName.

Definition js_of {A} (inj : A -> JsValue) (field : option A) : JsValue :=
  match field with
  | Some a => inj a
  | None => JsUndefined
  end.

(** [value[key]] *)
Definition get (value : ScrcpyOptionsInit1_16) (key : OptionKey) : JsValue :=
  match key with
  | Key_logLevel =>
    js_of (fun l => JsString (ScrcpyLogLevel_value l)) (logLevel value)
  | Key_maxSize => js_of JsNumber (maxSize value)
  | Key_bitRate => js_of JsNumber (bitRate value)
  | Key_maxFps => js_of JsNumber (maxFps value)
  | Key_lockVideoOrientation =>
    js_of (fun o => JsNumber (ScrcpyScreenOrientation_value o))
          (lockVideoOrientation value)
  | Key_tunnelForward => js_of JsBoolean (tunnelForward value)
  | Key_crop => js_of JsString (crop value)
  | Key_sendFrameMeta => js_of JsBoolean (sendFrameMeta value)
  | Key_control => js_of JsBoolean (control value)
  | Key_displayId => js_of JsNumber (displayId value)
  | Key_showTouches => js_of JsBoolean (showTouches value)
  | Key_stayAwake => js_of JsBoolean (stayAwake value)
  | Key_codecOptions => js_of JsCodecOptions (codecOptions value)
  | Key_encoderName => js_of JsString (encoderName value)
  end.

(* ================================================================= *)
(** ** ScrcpyOptions1_16 *)

(** What [new.target] is compared with in the constructor: the class
    itself, or a class that extends it. *)
Inductive NewTarget : Type :=
| ScrcpyOptions1_16_class
| Subclass.

Definition is_base (new_target : NewTarget) : bool :=
  match new_target with
  | ScrcpyOptions1_16_class => true
  | Subclass => false
  end.

Definition set_logLevel (value : ScrcpyOptionsInit1_16)
  (l : ScrcpyLogLevel) : ScrcpyOptionsInit1_16 :=
  mkInit (Some l) (maxSize value) (bitRate value) (maxFps value)
         (lockVideoOrientation value) (tunnelForward value) (crop value)
         (sendFrameMeta value) (control value) (displayId value)
         (showTouches value) (stayAwake value) (codecOptions value)
         (encoderName value).

Definition set_lockVideoOrientation (value : ScrcpyOptionsInit1_16)
  (o : ScrcpyScreenOrientation) : ScrcpyOptionsInit1_16 :=
  mkInit (logLevel value) (maxSize value) (bitRate value) (maxFps value)
         (Some o) (tunnelForward value) (crop value)
         (sendFrameMeta value) (control value) (displayId value)
         (showTouches value) (stayAwake value) (codecOptions value)
         (encoderName value).

Definition option_is {A} (eqb : A -> A -> bool) (field : option A) (a : A)
  : bool :=
  match field with
  | Some x => eqb x a
  | None => false
  end.

(** The constructor; the result is the stored [this.value]. *)
Definition ScrcpyOptions1_16 (new_target : NewTarget)
  (value : ScrcpyOptionsInit1_16) : ScrcpyOptionsInit1_16 :=
  let value :=
    if is_base new_target &&
       option_is ScrcpyLogLevel_eqb (logLevel value) Verbose
    then set_logLevel value Debug
    else value in
  let value :=
    if is_base new_target &&
       option_is ScrcpyScreenOrientation_eqb (lockVideoOrientation value) Initial
    then set_lockVideoOrientation value Unlocked
    else value in
  value.

Definition getArgumentOrder : list OptionKey :=
  [ Key_logLevel;
    Key_maxSize;
    Key_bitRate;
    Key_maxFps;
    Key_lockVideoOrientation;
    Key_tunnelForward;
    Key_crop;
    Key_sendFrameMeta;
    Key_control;
    Key_displayId;
    Key_showTouches;
    Key_stayAwake;
    Key_codecOptions;
    Key_encoderName ].

Definition getDefaultValue : ScrcpyOptionsInit1_16 :=
  {| logLevel := Some Debug;
     maxSize := Some 0;
     bitRate := Some 8000000;
     maxFps := Some 0;
     lockVideoOrientation := Some Unlocked;
     tunnelForward := Some false;
     crop := Some "-";
     sendFrameMeta := Some true;
     control := Some true;
     displayId := Some 0;
     showTouches := Some false;
     stayAwake := Some false;
     codecOptions := Some (mkCodecOptions []);
     encoderName := Some "-" |}.

Definition formatServerArguments (value : ScrcpyOptionsInit1_16)
  : list string :=
  let defaults := getDefaultValue in
  map (fun key => toScrcpyOptionValue (js_or (get value key) (get defaults key)) "-")
      getArgumentOrder.

(** What the specification asks of one argument: "use the user value if
    present, else the default". *)
Definition user_value_or_default (value : ScrcpyOptionsInit1_16)
  (key : OptionKey) : JsValue :=
  match get value key with
  | JsUndefined => get getDefaultValue key
  | v => v
  end.

(** Position of a key in the argument list. *)
Definition key_index (key : OptionKey) : nat :=
  match key with
  | Key_logLevel => 0
  | Key_maxSize => 1
  | Key_bitRate => 2
  | Key_maxFps => 3
  | Key_lockVideoOrientation => 4
  | Key_tunnelForward => 5
  | Key_crop => 6
  | Key_sendFrameMeta => 7
  | Key_control => 8
  | Key_displayId => 9
  | Key_showTouches => 10
  | Key_stayAwake => 11
  | Key_codecOptions => 12
  | Key_encoderName => 13
  end.

(** The argument emitted for [key]. *)
Definition emitted (value : ScrcpyOptionsInit1_16) (key : OptionKey) : string :=
  nth (key_index key) (formatServerArguments value) "".

(** [{ control: false }] *)
Definition control_false : ScrcpyOptionsInit1_16 :=
  mkInit None None None None None None None None (Some false) None None None
         None None.

(** [{ lockVideoOrientation: ScrcpyScreenOrientation.Portrait }] *)
Definition orientation_portrait : ScrcpyOptionsInit1_16 :=
  mkInit None None None None (Some Portrait) None None None None None None None
         None None.

(** [{ sendFrameMeta: false }] *)
Definition sendFrameMeta_false : ScrcpyOptionsInit1_16 :=
  mkInit None None None None None None None (Some false) None None None None
         None None.

(* ================================================================= *)
(** ** Connections *)

(** [ScrcpyClientConnectionOptions] *)
Module ConnectionOptions.
Record t : Type := mk {
  control : bool;
  sendDummyByte : bool;
  sendDeviceMeta : bool
}.
End ConnectionOptions.

(** The two connection classes, each built from the device handle and the
    connection options. *)
Inductive ScrcpyClientConnection (Adb : Type) : Type :=
| ScrcpyClientForwardConnection (adb : Adb) (options : ConnectionOptions.t)
| ScrcpyClientReverseConnection (adb : Adb) (options : ConnectionOptions.t).

Arguments ScrcpyClientForwardConnection {Adb} adb options.
Arguments ScrcpyClientReverseConnection {Adb} adb options.

Definition connection_options {Adb} (c : ScrcpyClientConnection Adb)
  : ConnectionOptions.t :=
  match c with
  | ScrcpyClientForwardConnection _ options => options
  | ScrcpyClientReverseConnection _ options => options
  end.

(** [if (x)] on an optional boolean: absent is falsy. *)
Definition truthy_flag (field : option bool) : bool :=
  truthy (js_of JsBoolean field).

Definition createConnection {Adb} (value : ScrcpyOptionsInit1_16) (adb : Adb)
  : ScrcpyClientConnection Adb :=
  let options :=
    {| ConnectionOptions.control := true;
       ConnectionOptions.sendDummyByte := true;
       ConnectionOptions.sendDeviceMeta := true |} in
  if truthy_flag (tunnelForward value)
  then ScrcpyClientForwardConnection adb options
  else ScrcpyClientReverseConnection adb options.

(* ================================================================= *)
(** ** The buffered byte stream and the VideoPacket record *)

(** A read from the buffered stream: the result or the exception, and the
    bytes the source still holds.  The stream is the finite sequence of
    bytes the source delivers before it closes. *)
Definition StreamM (A : Type) : Type := bytes -> Throws A * bytes.

Definition sret {A} (a : A) : StreamM A := fun s => (inr a, s).

Definition sbind {A B} (m : StreamM A) (k : A -> StreamM B) : StreamM B :=
  fun s =>
    match m s with
    | (inl e, s') => (inl e, s')
    | (inr a, s') => k a s'
    end.

Definition lift {A} (r : Throws A) : StreamM A := fun s => (r, s).

Notation "x <- m ;; k" := (sbind m (fun x => k))
  (at level 61, m at next level, right associativity).

(** [AdbBufferedStream.read(length)]: exactly [length] bytes, or
    [BufferedStreamEndedError] when the source closes first. *)
Definition read (length : nat) : StreamM bytes :=
  fun s =>
    if (length <=? List.length s)%nat
    then (inr (firstn length s), skipn length s)
    else (inl BufferedStreamEndedError, []).

Module StructOptions.
Record t : Type := mk { littleEndian : bool }.
(** [new Struct()] *)
Definition default : t := {| littleEndian := false |}.
End StructOptions.

(** Unsigned value of a field, most significant byte first. *)
Definition unsigned_be (bs : bytes) : Z :=
  fold_left (fun acc b => acc * 256 + Z_of_byte b) bs 0.

Definition decode_unsigned (o : StructOptions.t) (bs : bytes) : Z :=
  unsigned_be (if StructOptions.littleEndian o then rev bs else bs).

(** Two's complement reading of a [width]-byte field. *)
Definition decode_signed (o : StructOptions.t) (width : nat) (bs : bytes) : Z :=
  let u := decode_unsigned o bs in
  let half := 2 ^ (8 * Z.of_nat width - 1) in
  if u <? half then u else u - 2 * half.

Record VideoPacket : Type := mkVideoPacket {
  pts : Z;
  size : Z;
  data : bytes
}.

Definition NoPts : Z := -1.

(** Modelled from the spec: [Struct.deserialize] of the struct package,
    which is not among the sources, for the schema
    [new Struct().int64('pts').uint32('size').uint8Array('data', { lengthField: 'size' })].
    "decode synchronously consumes bytes from a buffered source one field at
    a time and returns a fully populated record; fails with a StreamEnded
    signal if the source closes before a record completes"; wire layout
    "[pts: int64][size: uint32][data: size bytes]".  The spec fixes one
    endianness without naming it; the struct's default options are used. *)
Definition VideoPacket_deserialize : StreamM VideoPacket :=
  pts_bytes <- read 8 ;;
  size_bytes <- read 4 ;;
  let size := decode_unsigned StructOptions.default size_bytes in
  data <- read (Z.to_nat size) ;;
  sret {| pts := decode_signed StructOptions.default 8 pts_bytes;
          size := size;
          data := data |}.

(** The size field of the record that starts the stream. *)
Definition size_field (s : bytes) : nat :=
  Z.to_nat (decode_unsigned StructOptions.default (firstn 4 (skipn 8 s))).

(** The source closed before a full record: at a record boundary the
    stream is empty, inside a record it is shorter than the record. *)
Definition ends_before_record (s : bytes) : Prop :=
  (List.length s < 12 \/ List.length s < 12 + size_field s)%nat.

(* ================================================================= *)
(** ** Parameter sets and video stream events *)

(** The fields of the parsed sequence parameter set that the decoder uses. *)
Record SequenceParameterSet : Type := mkSPS {
  profile_idc : Z;
  constraint_set : Z;
  level_idc : Z;
  pic_width_in_mbs_minus1 : Z;
  pic_height_in_map_units_minus1 : Z;
  frame_mbs_only_flag : Z;
  frame_crop_left_offset : Z;
  frame_crop_right_offset : Z;
  frame_crop_top_offset : Z;
  frame_crop_bottom_offset : Z
}.

Record ConfigurationData : Type := mkConfiguration {
  profileIndex : Z;
  constraintSet : Z;
  levelIndex : Z;
  encodedWidth : Z;
  encodedHeight : Z;
  cropLeft : Z;
  cropRight : Z;
  cropTop : Z;
  cropBottom : Z;
  croppedWidth : Z;
  croppedHeight : Z
}.

(** [VideoStreamPacket]: [{ type: 'configuration', data }] or
    [{ type: 'frame', data }]. *)
Inductive VideoStreamPacket : Type :=
| Configuration (data : ConfigurationData)
| Frame (data : bytes).

(** The Configuration chunk [pull] builds from a parsed parameter set,
    named for the statements below. *)
Definition configuration_of (sps : SequenceParameterSet) : ConfigurationData :=
  let w := (pic_width_in_mbs_minus1 sps + 1) * 16 in
  let h := (pic_height_in_map_units_minus1 sps + 1)
           * (2 - frame_mbs_only_flag sps) * 16 in
  {| profileIndex := profile_idc sps;
     constraintSet := constraint_set sps;
     levelIndex := level_idc sps;
     encodedWidth := w;
     encodedHeight := h;
     cropLeft := frame_crop_left_offset sps * 2;
     cropRight := frame_crop_right_offset sps * 2;
     cropTop := frame_crop_top_offset sps * 2;
     cropBottom := frame_crop_bottom_offset sps * 2;
     croppedWidth :=
       w - frame_crop_left_offset sps * 2 - frame_crop_right_offset sps * 2;
     croppedHeight :=
       h - frame_crop_top_offset sps * 2 - frame_crop_bottom_offset sps * 2 |}.

(** The decoder of one [parseVideoStream] call: the captured [header]
    variable and the buffered stream it reads from. *)
Record Decoder : Type := mkDecoder {
  header : option bytes;
  stream : bytes
}.

(** What one call of [pull] did: the chunks it enqueued, whether it closed
    the controller, the exception it rejected with, and the decoder
    afterwards. *)
Record PullResult : Type := mkPullResult {
  enqueued : list VideoStreamPacket;
  closed : bool;
  thrown : option Exception;
  next : Decoder
}.

Inductive StreamStatus : Type :=
| Readable
| Closed
| Errored (e : Exception).

(** The stream [parseVideoStream] returns. *)
Inductive ReadableStream : Type :=
| Transformed (chunks : list bytes)
| Pulled (d : Decoder).

(* ================================================================= *)
(** ** Control messages *)

Inductive AndroidKeyEventAction : Type :=
| Down
| Up.

Definition AndroidKeyEventAction_eqb (a b : AndroidKeyEventAction) : bool :=
  match a, b with
  | Down, Down => true
  | Up, Up => true
  | _, _ => false
  end.

(** [ScrcpyBackOrScreenOnEvent1_18]: the type discriminant and the key
    action. *)
Record ScrcpyBackOrScreenOnEvent1_18 : Type := mkBackOrScreenOn {
  type : Z;
  action : AndroidKeyEventAction
}.

(** [ScrcpyBackOrScreenOnEvent1_16.serialize]: the struct has the single
    field [uint8('type')]. *)
Definition ScrcpyBackOrScreenOnEvent1_16_serialize
  (message : ScrcpyBackOrScreenOnEvent1_18) : bytes :=
  [byte_of_Z (type message)].

(** [undefined] is [None]. *)
Definition serializeBackOrScreenOnControlMessage
  (message : ScrcpyBackOrScreenOnEvent1_18) : option bytes :=
  if AndroidKeyEventAction_eqb (action message) Down
  then Some (ScrcpyBackOrScreenOnEvent1_16_serialize message)
  else None.

(* ================================================================= *)
(** ** The video stream decoder *)

Section VideoStream.

(** [parse_sequence_parameter_set] of [sps.ts], which is not among the
    sources: it returns the parsed fields or throws. *)
Variable parse_sequence_parameter_set : bytes -> Throws SequenceParameterSet.

(** The [try] block of [pull]: the new value of [header] and the chunk
    to enqueue. *)
Definition pull_try (header : option bytes)
  : StreamM (option bytes * VideoStreamPacket) :=
  packet <- VideoPacket_deserialize ;;
  if pts packet =? NoPts then
    sequenceParameterSet <- lift (parse_sequence_parameter_set (data packet)) ;;
    let encodedWidth :=
      (pic_width_in_mbs_minus1 sequenceParameterSet + 1) * 16 in
    let encodedHeight :=
      (pic_height_in_map_units_minus1 sequenceParameterSet + 1)
      * (2 - frame_mbs_only_flag sequenceParameterSet) * 16 in
    let cropLeft := frame_crop_left_offset sequenceParameterSet * 2 in
    let cropRight := frame_crop_right_offset sequenceParameterSet * 2 in
    let cropTop := frame_crop_top_offset sequenceParameterSet * 2 in
    let cropBottom := frame_crop_bottom_offset sequenceParameterSet * 2 in
    let croppedWidth := encodedWidth - cropLeft - cropRight in
    let croppedHeight := encodedHeight - cropTop - cropBottom in
    sret (Some (data packet),
          Configuration
            {| profileIndex := profile_idc sequenceParameterSet;
               constraintSet := constraint_set sequenceParameterSet;
               levelIndex := level_idc sequenceParameterSet;
               encodedWidth := encodedWidth;
               encodedHeight := encodedHeight;
               cropLeft := cropLeft;
               cropRight := cropRight;
               cropTop := cropTop;
               cropBottom := cropBottom;
               croppedWidth := croppedWidth;
               croppedHeight := croppedHeight |})
  else
    match header with
    | Some stored => sret (None, Frame (stored ++ data packet))
    | None => sret (header, Frame (data packet))
    end.

(** [pull(controller)], with its [catch]. *)
Definition pull (d : Decoder) : PullResult :=
  match pull_try (header d) (stream d) with
  | (inr (header', chunk), s) =>
    {| enqueued := [chunk]; closed := false; thrown := None;
       next := {| header := header'; stream := s |} |}
  | (inl BufferedStreamEndedError, s) =>
    {| enqueued := []; closed := true; thrown := None;
       next := {| header := header d; stream := s |} |}
  | (inl e, s) =>
    {| enqueued := []; closed := false; thrown := Some e;
       next := {| header := header d; stream := s |} |}
  end.

(** The consumer reading until the stream closes or errors: the chunks
    in order and how the stream ended. *)
Fixpoint read_all (fuel : nat) (d : Decoder)
  : list VideoStreamPacket * StreamStatus :=
  match fuel with
  | O => ([], Readable)
  | S fuel =>
    let r := pull d in
    match thrown r with
    | Some e => (enqueued r, Errored e)
    | None =>
      if closed r then (enqueued r, Closed)
      else
        let (chunks, status) := read_all fuel (next r) in
        (enqueued r ++ chunks, status)
    end
  end.

Definition consume (fuel : nat) (s : ReadableStream)
  : list VideoStreamPacket * StreamStatus :=
  match s with
  | Transformed chunks => (map Frame chunks, Closed)
  | Pulled d => read_all fuel d
  end.

(** [parseVideoStream(stream)]; the buffered stream is given as the
    chunks its source delivers. *)
Definition parseVideoStream (value : ScrcpyOptionsInit1_16)
  (chunks : list bytes) : ReadableStream :=
  if option_is Bool.eqb (sendFrameMeta value) false
  then Transformed chunks
  else Pulled {| header := None; stream := List.concat chunks |}.

End VideoStream.

(* ================================================================= *)
(** ** Subprocess protocol selection *)

Section Subprocess.

Variable Adb : Type.
Variable AdbSubprocessProtocol : Type.

(** [AdbSubprocessProtocolConstructor] (and the older
    [AdbShellConstructor]): the static side of a protocol class. *)
Record AdbSubprocessProtocolConstructor : Type := mkConstructor {
  isSupported : Adb -> bool;
  spawn : Adb -> string -> AdbSubprocessProtocol
}.

(** [Partial<AdbSubprocessOptions>] *)
Record AdbSubprocessOptions : Type := mkSubprocessOptions {
  protocols : option (list AdbSubprocessProtocolConstructor)
}.

(** [DefaultOptions.protocols] *)
Variable DefaultOptions : list AdbSubprocessProtocolConstructor.

(** [{ ...DefaultOptions, ...options }.protocols] *)
Definition merged_protocols (options : option AdbSubprocessOptions)
  : list AdbSubprocessProtocolConstructor :=
  match options with
  | Some {| protocols := Some l |} => l
  | _ => DefaultOptions
  end.

(** The [for ... of] loop with its [break]. *)
Fixpoint first_supported (adb : Adb)
  (items : list AdbSubprocessProtocolConstructor)
  : option AdbSubprocessProtocolConstructor :=
  match items with
  | [] => None
  | item :: rest =>
    if isSupported item adb then Some item else first_supported adb rest
  end.

(** A candidate the loop passes over. *)
Definition unsupported (adb : Adb)
  (item : AdbSubprocessProtocolConstructor) : Prop :=
  isSupported item adb = false.

(** [AdbSubprocess.createProtocol] *)
Definition createProtocol (adb : Adb) (command : string)
  (options : option AdbSubprocessOptions) : Throws AdbSubprocessProtocol :=
  let protocols := merged_protocols options in
  match first_supported adb protocols with
  | None => inl (Error "No specified protocol is supported by the device")
  | Some Constructor => inr (spawn Constructor adb command)
  end.

(** [AdbChildProcess.createShell], the same loop over [shells]. *)
Definition createShell (adb : Adb) (command : string)
  (options : option AdbSubprocessOptions) : Throws AdbSubprocessProtocol :=
  let shells := merged_protocols options in
  match first_supported adb shells with
  | None => inl (Error "No specified shell is supported by the device")
  | Some shell => inr (spawn shell adb command)
  end.

End Subprocess.

Arguments mkConstructor {Adb AdbSubprocessProtocol} isSupported spawn.
Arguments isSupported {Adb AdbSubprocessProtocol} a adb.
Arguments spawn {Adb AdbSubprocessProtocol} a adb command.
Arguments mkSubprocessOptions {Adb AdbSubprocessProtocol} protocols.
Arguments protocols {Adb AdbSubprocessProtocol} a.
Arguments merged_protocols {Adb AdbSubprocessProtocol} DefaultOptions options.
Arguments first_supported {Adb AdbSubprocessProtocol} adb items.
Arguments unsupported {Adb AdbSubprocessProtocol} adb item.
Arguments createProtocol {Adb AdbSubprocessProtocol} DefaultOptions adb command options.
Arguments createShell {Adb AdbSubprocessProtocol} DefaultOptions adb command options.

(* ================================================================= *)
(** ** Struct serialization *)

(** The low [width] bytes of [n], most significant first.  A negative [n]
    comes out in two's complement, and a value that does not fit wraps, as
    [DataView.setUint32], [setInt32] and [setBigInt64] store it. *)
Fixpoint unsigned_be_bytes (width : nat) (n : Z) : bytes :=
  match width with
  | O => []
  | S width => unsigned_be_bytes width (n / 256) ++ [byte_of_Z n]
  end.

Definition encode_integer (o : StructOptions.t) (width : nat) (n : Z) : bytes :=
  let bs := unsigned_be_bytes width n in
  if StructOptions.littleEndian o then rev bs else bs.

(** Modelled from the spec: [Struct.serialize] of the struct package for
    the [VideoPacket] schema.  "Encode is the dual: produces the exact byte
    layout in a fixed endianness; the caller is responsible for keeping a
    length field consistent with its paired buffer". *)
Definition VideoPacket_serialize (p : VideoPacket) : bytes :=
  encode_integer StructOptions.default 8 (pts p)
  ++ encode_integer StructOptions.default 4 (size p)
  ++ data p.

(** A packet that fits the wire types and keeps [size == length(data)]. *)
Definition VideoPacket_wf (p : VideoPacket) : Prop :=
  - 2 ^ 63 <= pts p < 2 ^ 63 /\
  size p = Z.of_nat (List.length (data p)) /\
  size p < 2 ^ 32.

(** The records a source holds, read one after the other until it ends. *)
Fixpoint deserialize_all (fuel : nat) (s : bytes) : list VideoPacket :=
  match fuel with
  | O => []
  | S fuel =>
    match VideoPacket_deserialize s with
    | (inr p, rest) => p :: deserialize_all fuel rest
    | (inl _, _) => []
    end
  end.

(** [ScrcpyInjectScrollControlMessage1_22]: the fields of the 1.16 layout
    and the [buttons] field that version 1.22 adds. *)
Module InjectScroll.
Record t : Type := mk {
  type : Z;
  pointerX : Z;
  pointerY : Z;
  screenWidth : Z;
  screenHeight : Z;
  scrollX : Z;
  scrollY : Z;
  buttons : Z
}.
End InjectScroll.

(** [ScrcpyInjectScrollControlMessage1_16.serialize]: the fields of the
    struct in their order,
    [uint8 type, uint32 pointerX, uint32 pointerY, uint16 screenWidth,
     uint16 screenHeight, int32 scrollX, int32 scrollY]. *)
Definition ScrcpyInjectScrollControlMessage1_16_serialize
  (message : InjectScroll.t) : bytes :=
  encode_integer StructOptions.default 1 (InjectScroll.type message)
  ++ encode_integer StructOptions.default 4 (InjectScroll.pointerX message)
  ++ encode_integer StructOptions.default 4 (InjectScroll.pointerY message)
  ++ encode_integer StructOptions.default 2 (InjectScroll.screenWidth message)
  ++ encode_integer StructOptions.default 2 (InjectScroll.screenHeight message)
  ++ encode_integer StructOptions.default 4 (InjectScroll.scrollX message)
  ++ encode_integer StructOptions.default 4 (InjectScroll.scrollY message).

Definition serializeInjectScrollControlMessage (message : InjectScroll.t)
  : bytes :=
  ScrcpyInjectScrollControlMessage1_16_serialize message.

(** The bytes of a serialized message from [offset], [width] of them. *)
Definition field_at (offset width : nat) (bs : bytes) : bytes :=
  firstn width (skipn offset bs).

(* ================================================================= *)
(** ** Spawning with a command *)




(* ================================================================= *)
(** ** The direct sockets backend *)

Module AdbDirectSocketsBackend.
Record t : Type := mk {
  serial : string;
  host : string;
  port : Z;
  name : option string
}.

(** The constructor; an omitted [port] is 5555. *)
Definition new (host : string) (port : option Z) (name : option string) : t :=
  let port := match port with Some port => port | None => 5555 end in
  {| host := host;
     port := port;
     serial := (host ++ ":" ++ number_to_string port)%string;
     name := name |}.
End AdbDirectSocketsBackend.

(* ================================================================= *)
(** ** Sample data *)

(** A 1280x720 parameter set without cropping. *)
Definition sample_sps : SequenceParameterSet :=
  {| profile_idc := 66;
     constraint_set := 192;
     level_idc := 31;
     pic_width_in_mbs_minus1 := 79;
     pic_height_in_map_units_minus1 := 44;
     frame_mbs_only_flag := 1;
     frame_crop_left_offset := 0;
     frame_crop_right_offset := 0;
     frame_crop_top_offset := 0;
     frame_crop_bottom_offset := 0 |}.

(** The same with [frame_crop_left_offset] 2. *)
Definition sample_sps_cropped : SequenceParameterSet :=
  {| profile_idc := 66;
     constraint_set := 192;
     level_idc := 31;
     pic_width_in_mbs_minus1 := 79;
     pic_height_in_map_units_minus1 := 44;
     frame_mbs_only_flag := 1;
     frame_crop_left_offset := 2;
     frame_crop_right_offset := 0;
     frame_crop_top_offset := 0;
     frame_crop_bottom_offset := 0 |}.

Definition sample_parse (buffer : bytes) : Throws SequenceParameterSet :=
  inr sample_sps.

Definition failing_parse (buffer : bytes) : Throws SequenceParameterSet :=
  inl (Error "Invalid data").

(** A parameter-set record: pts -1, size 2, two bytes of data. *)
Definition header_record : bytes :=
  [xff; xff; xff; xff; xff; xff; xff; xff; x00; x00; x00; x02; x67; x42].

(** A frame record: pts 1, size 3, three bytes of data. *)
Definition frame_record : bytes :=
  [x00; x00; x00; x00; x00; x00; x00; x01; x00; x00; x00; x03; x65; x88; x84].

(** A decoder holding a header, about to read a frame record. *)
Definition decoder_with_header : Decoder :=
  {| header := Some [x67; x42]; stream := frame_record |}.

(** A decoder about to read a parameter-set record. *)
Definition decoder_at_header : Decoder :=
  {| header := None; stream := header_record |}.

(** A decoder whose source closed inside a record. *)
Definition decoder_mid_record : Decoder :=
  {| header := Some [x67; x42]; stream := firstn 13 frame_record |}.

(** A key-down back/screen-on message; the discriminant is 4. *)
Definition back_key_down : ScrcpyBackOrScreenOnEvent1_18 :=
  {| type := 4; action := Down |}.

(** Two protocol classes over a device handle that only records whether
    the device has the shell feature; a spawned process is shown as its
    command line. *)
Definition shell_protocol : AdbSubprocessProtocolConstructor bool string :=
  mkConstructor (fun adb => adb)
                (fun _ command => ("shell,v2:" ++ command)%string).

Definition none_protocol : AdbSubprocessProtocolConstructor bool string :=
  mkConstructor (fun _ => true)
                (fun _ command => ("exec:" ++ command)%string).

(* ================================================================= *)
(** * Properties of the option value model *)

Lemma formatServerArguments_length (value : ScrcpyOptionsInit1_16) :
  List.length (formatServerArguments value) = 14%nat.
Proof. reflexivity. Qed.

Lemma getArgumentOrder_index (key : OptionKey) :
  nth_error getArgumentOrder (key_index key) = Some key.
Proof. destruct key; reflexivity. Qed.

(** The argument at a key's position is the rendering of
    [this.value[key] || defaults[key]]. *)
Lemma emitted_eq (value : ScrcpyOptionsInit1_16) (key : OptionKey) :
  emitted value key =
  toScrcpyOptionValue (js_or (get value key) (get getDefaultValue key)) "-".
Proof. destruct key; reflexivity. Qed.

(** A truthy user value is what is emitted. *)
Lemma emitted_truthy (value : ScrcpyOptionsInit1_16) (key : OptionKey) :
  truthy (get value key) = true ->
  emitted value key = toScrcpyOptionValue (get value key) "-".
Proof.
  intros Ht. rewrite emitted_eq. unfold js_or. now rewrite Ht.
Qed.

(** An absent key is rendered from the default table. *)
Lemma emitted_absent (value : ScrcpyOptionsInit1_16) (key : OptionKey) :
  get value key = JsUndefined ->
  emitted value key = toScrcpyOptionValue (get getDefaultValue key) "-".
Proof.
  intros Hu. rewrite emitted_eq. unfold js_or. now rewrite Hu.
Qed.

(** A falsy user value is replaced by the default. *)
Lemma emitted_falsy (value : ScrcpyOptionsInit1_16) (key : OptionKey) :
  truthy (get value key) = false ->
  emitted value key = toScrcpyOptionValue (get getDefaultValue key) "-".
Proof.
  intros Hf. rewrite emitted_eq. unfold js_or. now rewrite Hf.
Qed.

(** C1: [formatServerArguments] is meant to emit the user value of a key
    when one is present and the default otherwise.  On a present but falsy
    user value the code emits the default: for [{ control: false }] the
    control argument is "true" although the user value renders as "false",
    and for [{ lockVideoOrientation: Portrait }] the orientation argument is
    "-1" although the user value renders as "0".  For
    [{ sendFrameMeta: false }] the server is told "true" while
    [parseVideoStream] of the same instance reads the stream as frames
    only. *)
Theorem formatServerArguments_falsy_user_value :
  emitted control_false Key_control = "true" /\
  toScrcpyOptionValue (user_value_or_default control_false Key_control) "-"
    = "false" /\
  emitted orientation_portrait Key_lockVideoOrientation = "-1" /\
  toScrcpyOptionValue
    (user_value_or_default orientation_portrait Key_lockVideoOrientation) "-"
    = "0" /\
  formatServerArguments control_false = formatServerArguments empty_init /\
  formatServerArguments orientation_portrait = formatServerArguments empty_init /\
  emitted sendFrameMeta_false Key_sendFrameMeta = "true" /\
  (forall chunks, parseVideoStream sendFrameMeta_false chunks = Transformed chunks).
Proof. repeat split; reflexivity. Qed.

(** C9: on an instance built from the empty user configuration,
    [formatServerArguments] returns the rendered default of every key in
    the version order, logLevel through encoderName, and the empty default
    CodecOptions renders as the placeholder "-". *)
Theorem formatServerArguments_empty (new_target : NewTarget) :
  formatServerArguments (ScrcpyOptions1_16 new_target empty_init) =
    map (fun key => toScrcpyOptionValue (get getDefaultValue key) "-")
        getArgumentOrder /\
  formatServerArguments (ScrcpyOptions1_16 new_target empty_init) =
    [ "debug"; "0"; "8000000"; "0"; "-1"; "false"; "-"; "true"; "true"; "0";
      "false"; "false"; "-"; "-" ] /\
  get getDefaultValue Key_codecOptions = JsCodecOptions (mkCodecOptions []) /\
  emitted (ScrcpyOptions1_16 new_target empty_init) Key_codecOptions = "-".
Proof. destruct new_target; repeat split; reflexivity. Qed.

(** C6: constructed as exactly the base class, a [logLevel] of 'verbose'
    is stored as 'debug' and a [lockVideoOrientation] of Initial as
    Unlocked; constructed through a subclass the input is stored as it is;
    every other field is stored unchanged in both cases. *)
Theorem constructor_normalization (value : ScrcpyOptionsInit1_16) :
  let stored := ScrcpyOptions1_16 ScrcpyOptions1_16_class value in
  logLevel stored =
    match logLevel value with
    | Some Verbose => Some Debug
    | l => l
    end /\
  lockVideoOrientation stored =
    match lockVideoOrientation value with
    | Some Initial => Some Unlocked
    | o => o
    end /\
  (maxSize stored = maxSize value /\
   bitRate stored = bitRate value /\
   maxFps stored = maxFps value /\
   tunnelForward stored = tunnelForward value /\
   crop stored = crop value /\
   sendFrameMeta stored = sendFrameMeta value) /\
  (control stored = control value /\
   displayId stored = displayId value /\
   showTouches stored = showTouches value /\
   stayAwake stored = stayAwake value /\
   codecOptions stored = codecOptions value /\
   encoderName stored = encoderName value) /\
  ScrcpyOptions1_16 Subclass value = value.
Proof.
  destruct value as [l ms br mf o tf c sfm ctl di st sa co en].
  destruct l as [[]|], o as [[]|]; cbv; repeat split.
Qed.

(** C5: [createConnection] returns a forward connection when the stored
    [tunnelForward] is true and a reverse connection otherwise, absent
    included; in both cases the connection options have control,
    sendDummyByte and sendDeviceMeta set, whatever the user's [control]. *)
Theorem createConnection_tunnel (Adb : Type) (value : ScrcpyOptionsInit1_16)
  (adb : Adb) :
  let forced :=
    {| ConnectionOptions.control := true;
       ConnectionOptions.sendDummyByte := true;
       ConnectionOptions.sendDeviceMeta := true |} in
  createConnection value adb =
    match tunnelForward value with
    | Some true => ScrcpyClientForwardConnection adb forced
    | Some false => ScrcpyClientReverseConnection adb forced
    | None => ScrcpyClientReverseConnection adb forced
    end /\
  connection_options (createConnection value adb) = forced /\
  tunnelForward getDefaultValue = Some false.
Proof.
  unfold createConnection, truthy_flag.
  destruct (tunnelForward value) as [[]|]; cbn; repeat split.
Qed.

(* ================================================================= *)
(** * Properties of the control message codec *)

Lemma Z_of_byte_of_Z (z : Z) : Z_of_byte (byte_of_Z z) = z mod 256.
Proof.
  unfold Z_of_byte, byte_of_Z.
  assert (Hr : 0 <= z mod 256 < 256) by (apply Z.mod_pos_bound; lia).
  destruct (Byte.of_N (Z.to_N (z mod 256))) as [b|] eqn:E.
  - apply Byte.to_of_N in E. rewrite E. apply Z2N.id. lia.
  - apply Byte.of_N_None_iff in E. lia.
Qed.

(** C7: a back/screen-on message is serialized only when its action is
    key-down, and then to exactly one byte, the message's type
    discriminant; for key-up the result is [undefined]. *)
Theorem serializeBackOrScreenOn_key_down_only
  (message : ScrcpyBackOrScreenOnEvent1_18) :
  0 <= type message < 256 ->
  match action message with
  | Down =>
    exists b, serializeBackOrScreenOnControlMessage message = Some [b] /\
              Z_of_byte b = type message
  | Up => serializeBackOrScreenOnControlMessage message = None
  end.
Proof.
  intros Hrange. unfold serializeBackOrScreenOnControlMessage.
  destruct (action message); cbn.
  - exists (byte_of_Z (type message)). split; [reflexivity|].
    rewrite Z_of_byte_of_Z. now apply Z.mod_small.
  - reflexivity.
Qed.

(* ================================================================= *)
(** * Properties of the buffered stream and of VideoPacket *)

Lemma read_ok (n : nat) (s : bytes) :
  (n <= List.length s)%nat -> read n s = (inr (firstn n s), skipn n s).
Proof.
  intros H. unfold read. apply Nat.leb_le in H. now rewrite H.
Qed.

Lemma read_ended (n : nat) (s : bytes) :
  (List.length s < n)%nat -> read n s = (inl BufferedStreamEndedError, []).
Proof.
  intros H. unfold read. apply Nat.leb_gt in H. now rewrite H.
Qed.

Lemma unsigned_be_acc (bs : bytes) (acc : Z) :
  0 <= acc ->
  0 <= fold_left (fun acc b => acc * 256 + Z_of_byte b) bs acc.
Proof.
  revert acc. induction bs as [|b bs IH]; intros acc Hacc; cbn; [assumption|].
  apply IH. unfold Z_of_byte. lia.
Qed.

Lemma decode_unsigned_nonneg (o : StructOptions.t) (bs : bytes) :
  0 <= decode_unsigned o bs.
Proof. unfold decode_unsigned, unsigned_be. apply unsigned_be_acc. lia. Qed.

Lemma VideoPacket_deserialize_ended (s : bytes) :
  ends_before_record s ->
  VideoPacket_deserialize s = (inl BufferedStreamEndedError, []).
Proof.
  unfold ends_before_record, size_field, VideoPacket_deserialize, sbind.
  intros H.
  destruct (Nat.lt_ge_cases (List.length s) 8) as [H8|H8].
  { now rewrite read_ended. }
  rewrite read_ok by assumption.
  destruct (Nat.lt_ge_cases (List.length (skipn 8 s)) 4) as [H4|H4].
  { now rewrite read_ended. }
  rewrite read_ok by assumption.
  rewrite length_skipn in H4.
  rewrite read_ended; [reflexivity|].
  rewrite !length_skipn. lia.
Qed.

Lemma VideoPacket_deserialize_ok (s : bytes) :
  ~ ends_before_record s ->
  VideoPacket_deserialize s =
    (inr {| pts := decode_signed StructOptions.default 8 (firstn 8 s);
            size := decode_unsigned StructOptions.default
                      (firstn 4 (skipn 8 s));
            data := firstn (size_field s) (skipn 12 s) |},
     skipn (12 + size_field s) s).
Proof.
  unfold ends_before_record, size_field, VideoPacket_deserialize, sbind.
  intros H.
  rewrite (read_ok 8 s) by lia.
  rewrite (read_ok 4 (skipn 8 s)) by (rewrite length_skipn; lia).
  rewrite read_ok by (rewrite !length_skipn; lia).
  unfold sret. rewrite !skipn_skipn.
  replace (4 + 8)%nat with 12%nat by reflexivity.
  now rewrite (Nat.add_comm _ 12).
Qed.

Lemma ends_before_record_dec (s : bytes) :
  {ends_before_record s} + {~ ends_before_record s}.
Proof.
  unfold ends_before_record.
  destruct (lt_dec (List.length s) 12);
    destruct (lt_dec (List.length s) (12 + size_field s)); (left; lia) || (right; lia).
Qed.

(** [deserialize] throws nothing but the stream-ended error. *)
Lemma VideoPacket_deserialize_throws (s s' : bytes) (e : Exception) :
  VideoPacket_deserialize s = (inl e, s') ->
  e = BufferedStreamEndedError /\ s' = [] /\ ends_before_record s.
Proof.
  intros H. destruct (ends_before_record_dec s) as [He|He].
  - rewrite VideoPacket_deserialize_ended in H by assumption.
    inversion H. auto.
  - rewrite VideoPacket_deserialize_ok in H by assumption. discriminate.
Qed.

(** A decoded record keeps [size == length(data)] and takes at least the
    twelve bytes of its fixed fields from the stream. *)
Lemma VideoPacket_deserialize_returns (s s' : bytes) (p : VideoPacket) :
  VideoPacket_deserialize s = (inr p, s') ->
  size p = Z.of_nat (List.length (data p)) /\
  List.length s = (12 + List.length (data p) + List.length s')%nat /\
  skipn 12 s = data p ++ s'.
Proof.
  intros H. destruct (ends_before_record_dec s) as [He|He].
  - rewrite VideoPacket_deserialize_ended in H by assumption. discriminate.
  - rewrite VideoPacket_deserialize_ok in H by assumption.
    match type of H with
    | (inr ?q, ?t) = _ =>
      assert (Hp : p = q) by congruence;
      assert (Hs : s' = t) by congruence
    end.
    subst p s'. clear H. cbn [size data].
    unfold ends_before_record in He.
    assert (Hn : (size_field s <= List.length (skipn 12 s))%nat)
      by (rewrite length_skipn; lia).
    rewrite length_firstn, Nat.min_l by assumption.
    split; [|split].
    + unfold size_field. rewrite Z2Nat.id; [reflexivity|].
      apply decode_unsigned_nonneg.
    + rewrite length_skipn. lia.
    + rewrite <- (firstn_skipn (size_field s) (skipn 12 s)) at 1.
      now rewrite skipn_skipn, Nat.add_comm.
Qed.

(* ================================================================= *)
(** * Properties of the video stream decoder *)

Section VideoStreamProperties.

Variable parse : bytes -> Throws SequenceParameterSet.

Lemma pull_frame (d : Decoder) (p : VideoPacket) (s' : bytes) :
  VideoPacket_deserialize (stream d) = (inr p, s') ->
  pts p <> NoPts ->
  pull parse d =
    {| enqueued := [Frame match header d with
                          | Some stored => stored ++ data p
                          | None => data p
                          end];
       closed := false;
       thrown := None;
       next := {| header := None; stream := s' |} |}.
Proof.
  intros Hd Hpts. apply Z.eqb_neq in Hpts.
  unfold pull, pull_try, sbind. rewrite Hd, Hpts.
  destruct (header d); reflexivity.
Qed.

Lemma pull_configuration (d : Decoder) (p : VideoPacket) (s' : bytes)
  (sps : SequenceParameterSet) :
  VideoPacket_deserialize (stream d) = (inr p, s') ->
  pts p = NoPts ->
  parse (data p) = inr sps ->
  pull parse d =
    {| enqueued := [Configuration (configuration_of sps)];
       closed := false;
       thrown := None;
       next := {| header := Some (data p); stream := s' |} |}.
Proof.
  intros Hd Hpts Hsps. apply Z.eqb_eq in Hpts.
  unfold pull, pull_try, sbind, lift. rewrite Hd, Hpts, Hsps.
  reflexivity.
Qed.

(** A parameter set that does not parse: nothing is enqueued, the
    stored header is kept, and the exception decides between closing
    and rejecting. *)
Lemma pull_parse_error (d : Decoder) (p : VideoPacket) (s' : bytes)
  (e : Exception) :
  VideoPacket_deserialize (stream d) = (inr p, s') ->
  pts p = NoPts ->
  parse (data p) = inl e ->
  pull parse d =
    {| enqueued := [];
       closed := match e with
                 | BufferedStreamEndedError => true
                 | Error _ => false
                 end;
       thrown := match e with
                 | BufferedStreamEndedError => None
                 | Error _ => Some e
                 end;
       next := {| header := header d; stream := s' |} |}.
Proof.
  intros Hd Hpts Hsps. apply Z.eqb_eq in Hpts.
  unfold pull, pull_try, sbind, lift. rewrite Hd, Hpts, Hsps.
  destruct e; reflexivity.
Qed.

Lemma pull_ended (d : Decoder) :
  ends_before_record (stream d) ->
  pull parse d =
    {| enqueued := [];
       closed := true;
       thrown := None;
       next := {| header := header d; stream := [] |} |}.
Proof.
  intros He. unfold pull, pull_try, sbind.
  now rewrite VideoPacket_deserialize_ended.
Qed.

(** One pull enqueues at most one chunk. *)
Lemma pull_enqueues_at_most_one (d : Decoder) :
  (List.length (enqueued (pull parse d)) <= 1)%nat.
Proof.
  unfold pull. destruct (pull_try parse (header d) (stream d)) as [[e|[h c]] s].
  - destruct e; cbn; lia.
  - cbn; lia.
Qed.

(** C2: in metadata mode, a Frame chunk enqueued by a pull carries the
    stored header bytes followed by the packet's data when a header is
    stored, and the packet's data unchanged when none is; after the pull
    no header is stored. *)
Theorem pull_frame_merges_header (d : Decoder) (frameData : bytes) :
  In (Frame frameData) (enqueued (pull parse d)) ->
  exists (packet : VideoPacket) (rest : bytes),
    VideoPacket_deserialize (stream d) = (inr packet, rest) /\
    pts packet <> NoPts /\
    frameData = match header d with
                | Some stored => stored ++ data packet
                | None => data packet
                end /\
    enqueued (pull parse d) = [Frame frameData] /\
    header (next (pull parse d)) = None.
Proof.
  intros Hin.
  destruct (VideoPacket_deserialize (stream d)) as [[e|p] s'] eqn:Hd.
  - exfalso. apply VideoPacket_deserialize_throws in Hd.
    destruct Hd as (_ & _ & He).
    rewrite (pull_ended d He) in Hin. exact Hin.
  - destruct (Z.eq_dec (pts p) NoPts) as [Hpts|Hpts].
    + exfalso. destruct (parse (data p)) as [e|sps] eqn:Hsps.
      * rewrite (pull_parse_error d p s' e Hd Hpts Hsps) in Hin.
        exact Hin.
      * rewrite (pull_configuration d p s' sps Hd Hpts Hsps) in Hin.
        destruct Hin as [Hin|[]]. discriminate.
    + rewrite (pull_frame d p s' Hd Hpts) in Hin |- *.
      destruct Hin as [Hin|[]]. injection Hin as <-.
      exists p, s'. repeat split; assumption || reflexivity.
Qed.

(** C3: the Configuration chunk enqueued for a parameter-set packet has
    the geometry derived from the parsed fields: sixteen times the
    macroblock counts, doubled crop offsets, and the cropped size as the
    encoded size less the crops on both sides.  Fields 79, 44, 1 with no
    crop give 1280x720, encoded and cropped. *)
Theorem pull_configuration_geometry (d : Decoder) (packet : VideoPacket)
  (rest : bytes) (sps : SequenceParameterSet) :
  VideoPacket_deserialize (stream d) = (inr packet, rest) ->
  pts packet = NoPts ->
  parse (data packet) = inr sps ->
  exists c : ConfigurationData,
    enqueued (pull parse d) = [Configuration c] /\
    encodedWidth c = (pic_width_in_mbs_minus1 sps + 1) * 16 /\
    encodedHeight c =
      (pic_height_in_map_units_minus1 sps + 1)
      * (2 - frame_mbs_only_flag sps) * 16 /\
    (cropLeft c = frame_crop_left_offset sps * 2 /\
     cropRight c = frame_crop_right_offset sps * 2 /\
     cropTop c = frame_crop_top_offset sps * 2 /\
     cropBottom c = frame_crop_bottom_offset sps * 2) /\
    croppedWidth c = encodedWidth c - cropLeft c - cropRight c /\
    croppedHeight c = encodedHeight c - cropTop c - cropBottom c /\
    (pic_width_in_mbs_minus1 sps = 79 ->
     pic_height_in_map_units_minus1 sps = 44 ->
     frame_mbs_only_flag sps = 1 ->
     frame_crop_left_offset sps = 0 ->
     frame_crop_right_offset sps = 0 ->
     frame_crop_top_offset sps = 0 ->
     frame_crop_bottom_offset sps = 0 ->
     encodedWidth c = 1280 /\ encodedHeight c = 720 /\
     croppedWidth c = 1280 /\ croppedHeight c = 720).
Proof.
  intros Hd Hpts Hsps. exists (configuration_of sps).
  rewrite (pull_configuration d packet rest sps Hd Hpts Hsps).
  unfold configuration_of; cbn.
  repeat (split; [reflexivity|]).
  split; [repeat split|].
  repeat (split; [reflexivity|]).
  intros Hw Hh Hf Hl Hr Ht Hb.
  rewrite Hw, Hh, Hf, Hl, Hr, Ht, Hb. repeat split; reflexivity.
Qed.

(** C4: when the source ends before a full record, at a record boundary
    or inside a record, the pull closes the stream: nothing is enqueued
    for the incomplete record and no error reaches the consumer, who
    sees the sequence end. *)
Theorem pull_stream_ended_closes (d : Decoder) :
  ends_before_record (stream d) ->
  enqueued (pull parse d) = [] /\
  closed (pull parse d) = true /\
  thrown (pull parse d) = None /\
  (forall fuel, read_all parse (S fuel) d = ([], Closed)) /\
  VideoPacket_deserialize (stream d) = (inl BufferedStreamEndedError, []).
Proof.
  intros He. rewrite (pull_ended d He). cbn.
  repeat split; try reflexivity.
  - intros fuel. cbn. now rewrite (pull_ended d He).
  - now apply VideoPacket_deserialize_ended.
Qed.

(** Every pull that neither closes nor rejects takes a whole record
    from the source. *)
Lemma pull_consumes (d : Decoder) :
  closed (pull parse d) = false ->
  thrown (pull parse d) = None ->
  (12 + List.length (stream (next (pull parse d))) <= List.length (stream d))%nat.
Proof.
  destruct (VideoPacket_deserialize (stream d)) as [[e|p] s'] eqn:Hd.
  - apply VideoPacket_deserialize_throws in Hd. destruct Hd as (_ & _ & He).
    rewrite (pull_ended d He). cbn. discriminate.
  - pose proof (VideoPacket_deserialize_returns _ _ _ Hd) as (_ & Hlen & _).
    destruct (Z.eq_dec (pts p) NoPts) as [Hpts|Hpts].
    + destruct (parse (data p)) as [e|sps] eqn:Hsps.
      * rewrite (pull_parse_error d p s' e Hd Hpts Hsps).
        destruct e; cbn; discriminate.
      * rewrite (pull_configuration d p s' sps Hd Hpts Hsps). cbn. lia.
    + rewrite (pull_frame d p s' Hd Hpts). cbn. lia.
Qed.

(** What a pull rejects with was thrown by the parameter-set parser:
    deserialization errors never reach the consumer. *)
Lemma pull_thrown_by_parser (d : Decoder) (e : Exception) :
  thrown (pull parse d) = Some e ->
  exists b : bytes, parse b = inl e /\ e <> BufferedStreamEndedError.
Proof.
  destruct (VideoPacket_deserialize (stream d)) as [[e'|p] s'] eqn:Hd.
  - apply VideoPacket_deserialize_throws in Hd. destruct Hd as (_ & _ & He).
    rewrite (pull_ended d He). cbn. discriminate.
  - destruct (Z.eq_dec (pts p) NoPts) as [Hpts|Hpts].
    + destruct (parse (data p)) as [e'|sps] eqn:Hsps.
      * rewrite (pull_parse_error d p s' e' Hd Hpts Hsps).
        destruct e'; cbn; [discriminate|].
        intros H. injection H as <-. exists (data p). split; [assumption|discriminate].
      * rewrite (pull_configuration d p s' sps Hd Hpts Hsps). cbn. discriminate.
    + rewrite (pull_frame d p s' Hd Hpts). cbn. discriminate.
Qed.

(** Reading a finite source to its end: with one unit of fuel per byte
    and one to spare the sequence has ended, cleanly unless the
    parameter-set parser threw. *)
Lemma read_all_ends (fuel : nat) (d : Decoder) :
  (List.length (stream d) < fuel)%nat ->
  snd (read_all parse fuel d) = Closed \/
  exists (e : Exception) (b : bytes),
    snd (read_all parse fuel d) = Errored e /\ parse b = inl e /\
    e <> BufferedStreamEndedError.
Proof.
  revert d. induction fuel as [|fuel IH]; intros d Hlen; [lia|].
  cbn [read_all].
  destruct (thrown (pull parse d)) as [e|] eqn:Ht.
  - right. destruct (pull_thrown_by_parser d e Ht) as (b & Hb & Hne).
    exists e, b. cbn. auto.
  - destruct (closed (pull parse d)) eqn:Hc; [left; reflexivity|].
    pose proof (pull_consumes d Hc Ht) as Hcons.
    specialize (IH (next (pull parse d))).
    destruct (read_all parse fuel (next (pull parse d))) as [chunks status].
    cbn in *. apply IH. lia.
Qed.

End VideoStreamProperties.

(** C10: [parseVideoStream] wraps every source chunk as a Frame chunk only
    when the stored [sendFrameMeta] is [false]; when it is absent, as when
    it is [true], the stream is decoded packet by packet, which agrees with
    the default [true]. *)
Theorem parseVideoStream_mode (parse : bytes -> Throws SequenceParameterSet)
  (value : ScrcpyOptionsInit1_16) (chunks : list bytes) :
  match sendFrameMeta value with
  | Some false =>
    parseVideoStream value chunks = Transformed chunks /\
    forall fuel,
      consume parse fuel (parseVideoStream value chunks) =
        (map Frame chunks, Closed)
  | Some true =>
    parseVideoStream value chunks =
      Pulled {| header := None; stream := List.concat chunks |}
  | None =>
    parseVideoStream value chunks =
      Pulled {| header := None; stream := List.concat chunks |}
  end /\
  sendFrameMeta getDefaultValue = Some true.
Proof.
  unfold parseVideoStream.
  destruct (sendFrameMeta value) as [[]|]; cbn; repeat split.
Qed.

(* ================================================================= *)
(** * Properties of the subprocess protocol selection *)

Section SubprocessProperties.

Variable Adb : Type.
Variable AdbSubprocessProtocol : Type.
Variable DefaultOptions :
  list (AdbSubprocessProtocolConstructor Adb AdbSubprocessProtocol).


Lemma first_supported_some (adb : Adb)
  (items : list (AdbSubprocessProtocolConstructor Adb AdbSubprocessProtocol))
  (c : AdbSubprocessProtocolConstructor Adb AdbSubprocessProtocol) :
  first_supported adb items = Some c ->
  exists pre post,
    items = pre ++ c :: post /\
    Forall (unsupported adb) pre /\
    isSupported c adb = true.
Proof.
  induction items as [|item rest IH]; cbn; [discriminate|].
  destruct (isSupported item adb) eqn:Hs.
  - intros H. injection H as <-. exists [], rest. repeat split; auto.
  - intros H. destruct (IH H) as (pre & post & -> & Hpre & Hc).
    exists (item :: pre), post. repeat split; auto.
Qed.

Lemma first_supported_none (adb : Adb)
  (items : list (AdbSubprocessProtocolConstructor Adb AdbSubprocessProtocol)) :
  first_supported adb items = None ->
  Forall (unsupported adb) items.
Proof.
  induction items as [|item rest IH]; cbn; [constructor|].
  destruct (isSupported item adb) eqn:Hs; [discriminate|].
  intros H. constructor; auto.
Qed.

(** C8: from an ordered list of candidates, setup spawns with the first
    one whose [isSupported] is true; when none is, it throws an error
    that says so.  The candidate used is always one of the list. *)
Theorem createProtocol_first_supported (adb : Adb) (command : string)
  (candidates : list (AdbSubprocessProtocolConstructor Adb AdbSubprocessProtocol)) :
  let options := Some {| protocols := Some candidates |} in
  (exists pre c post,
      candidates = pre ++ c :: post /\
      Forall (unsupported adb) pre /\
      isSupported c adb = true /\
      createProtocol DefaultOptions adb command options =
        inr (spawn c adb command) /\
      createShell DefaultOptions adb command options =
        inr (spawn c adb command)) \/
  (Forall (unsupported adb) candidates /\
   createProtocol DefaultOptions adb command options =
     inl (Error "No specified protocol is supported by the device") /\
   createShell DefaultOptions adb command options =
     inl (Error "No specified shell is supported by the device")).
Proof.
  intros options. unfold createProtocol, createShell, options. cbn.
  destruct (first_supported adb candidates) as [c|] eqn:Hf.
  - left. destruct (first_supported_some _ _ _ Hf) as (pre & post & H1 & H2 & H3).
    exists pre, c, post. repeat split; assumption.
  - right. split; [|split; reflexivity].
    now apply first_supported_none.
Qed.

End SubprocessProperties.

(* ================================================================= *)
(** * The theorems at concrete inputs *)

Lemma pull_frame_merges_header_witness :
  In (Frame [x67; x42; x65; x88; x84])
     (enqueued (pull sample_parse decoder_with_header)) /\
  exists (packet : VideoPacket) (rest : bytes),
    VideoPacket_deserialize (stream decoder_with_header) = (inr packet, rest) /\
    pts packet <> NoPts /\
    [x67; x42; x65; x88; x84] =
      match header decoder_with_header with
      | Some stored => stored ++ data packet
      | None => data packet
      end /\
    enqueued (pull sample_parse decoder_with_header) =
      [Frame [x67; x42; x65; x88; x84]] /\
    header (next (pull sample_parse decoder_with_header)) = None.
Proof.
  assert (Hin : In (Frame [x67; x42; x65; x88; x84])
                   (enqueued (pull sample_parse decoder_with_header)))
    by (vm_compute; left; reflexivity).
  split; [exact Hin|].
  exact (pull_frame_merges_header sample_parse decoder_with_header _ Hin).
Defined.

Lemma pull_configuration_geometry_witness :
  exists c : ConfigurationData,
    enqueued (pull sample_parse decoder_at_header) = [Configuration c] /\
    encodedWidth c = 1280 /\ encodedHeight c = 720 /\
    croppedWidth c = 1280 /\ croppedHeight c = 720.
Proof.
  destruct (pull_configuration_geometry sample_parse decoder_at_header
              {| pts := -1; size := 2; data := [x67; x42] |} [] sample_sps)
    as (c & Henq & _ & _ & _ & _ & _ & Hex);
    [vm_compute; reflexivity | reflexivity | reflexivity |].
  exists c. split; [exact Henq|].
  apply Hex; reflexivity.
Defined.

Lemma pull_stream_ended_closes_witness :
  ends_before_record (stream decoder_mid_record) /\
  enqueued (pull sample_parse decoder_mid_record) = [] /\
  closed (pull sample_parse decoder_mid_record) = true /\
  thrown (pull sample_parse decoder_mid_record) = None.
Proof.
  assert (He : ends_before_record (stream decoder_mid_record))
    by (right; vm_compute; lia).
  split; [exact He|].
  destruct (pull_stream_ended_closes sample_parse decoder_mid_record He)
    as (H1 & H2 & H3 & _).
  repeat split; assumption.
Defined.

Lemma serializeBackOrScreenOn_key_down_only_witness :
  0 <= type back_key_down < 256 /\
  exists b, serializeBackOrScreenOnControlMessage back_key_down = Some [b] /\
            Z_of_byte b = 4.
Proof.
  assert (Hr : 0 <= type back_key_down < 256) by (cbn; lia).
  split; [exact Hr|].
  exact (serializeBackOrScreenOn_key_down_only back_key_down Hr).
Defined.

(* ================================================================= *)
(** * Runs on sample streams *)

(** A parameter set followed by a frame: the frame carries the header
    bytes in front, and the source closing after it ends the sequence. *)
Example read_all_header_then_frame :
  read_all sample_parse 3
    {| header := None; stream := header_record ++ frame_record |} =
  ([Configuration (configuration_of sample_sps);
    Frame [x67; x42; x65; x88; x84]], Closed).
Proof. vm_compute. reflexivity. Qed.

(** A second frame after the merge is passed on as it is. *)
Example read_all_two_frames :
  read_all sample_parse 4
    {| header := None;
       stream := header_record ++ frame_record ++ frame_record |} =
  ([Configuration (configuration_of sample_sps);
    Frame [x67; x42; x65; x88; x84];
    Frame [x65; x88; x84]], Closed).
Proof. vm_compute. reflexivity. Qed.

(** The source closing inside the second record. *)
Example read_all_mid_record :
  read_all sample_parse 3
    {| header := None; stream := header_record ++ firstn 13 frame_record |} =
  ([Configuration (configuration_of sample_sps)], Closed).
Proof. vm_compute. reflexivity. Qed.

(** The source closing at once. *)
Example read_all_empty :
  read_all sample_parse 1 {| header := None; stream := [] |} = ([], Closed).
Proof. reflexivity. Qed.

(** A parameter set that does not parse errors the stream. *)
Example read_all_parse_error :
  read_all failing_parse 3
    {| header := None; stream := header_record ++ frame_record |} =
  ([], Errored (Error "Invalid data")).
Proof. vm_compute. reflexivity. Qed.

Example configuration_of_cropped :
  cropLeft (configuration_of sample_sps_cropped) = 4 /\
  croppedWidth (configuration_of sample_sps_cropped) = 1276.
Proof. split; reflexivity. Qed.

(** The same chunk read in the two modes. *)
Example consume_modes :
  consume sample_parse 2 (parseVideoStream sendFrameMeta_false [frame_record]) =
    ([Frame frame_record], Closed) /\
  consume sample_parse 2 (parseVideoStream empty_init [frame_record]) =
    ([Frame [x65; x88; x84]], Closed).
Proof. split; vm_compute; reflexivity. Qed.

Example toOptionValue_entries :
  CodecOptions_toOptionValue
    (mkCodecOptions [("profile", Some 1); ("level", None)]) = Some "profile=1" /\
  CodecOptions_toOptionValue
    (mkCodecOptions [("profile", Some 1); ("level", Some 512)]) =
    Some "profile=1,level=512" /\
  CodecOptions_toOptionValue (mkCodecOptions [("level", None)]) = None.
Proof. repeat split; reflexivity. Qed.

Example formatServerArguments_user_values :
  formatServerArguments
    (mkInit (Some Info) (Some 1080) None None (Some Landscape) (Some true)
            None None None None (Some true) None
            (Some (mkCodecOptions [("profile", Some 1)])) (Some "enc")) =
  [ "info"; "1080"; "8000000"; "0"; "1"; "true"; "-"; "true"; "true"; "0";
    "true"; "false"; "profile=1"; "enc" ].
Proof. reflexivity. Qed.

Example key_up_not_serialized :
  serializeBackOrScreenOnControlMessage {| type := 4; action := Up |} = None /\
  serializeBackOrScreenOnControlMessage back_key_down = Some [x04].
Proof. split; reflexivity. Qed.

(** On a device without the shell feature the second default is used;
    with only the shell protocol listed, setup throws and the defaults are
    not consulted. *)
Example createProtocol_samples :
  createProtocol [shell_protocol; none_protocol] false "ls" None =
    inr "exec:ls" /\
  createProtocol [shell_protocol; none_protocol] true "ls" None =
    inr "shell,v2:ls" /\
  createProtocol [shell_protocol; none_protocol] false "ls"
    (Some {| protocols := Some [shell_protocol] |}) =
    inl (Error "No specified protocol is supported by the device") /\
  createShell [shell_protocol; none_protocol] false "ls"
    (Some {| protocols := Some [] |}) =
    inl (Error "No specified shell is supported by the device").
Proof. repeat split; reflexivity. Qed.

(* ================================================================= *)
(** * Further properties of the option value model *)

Lemma number_to_string_nonempty (n : Z) : number_to_string n <> "".
Proof.
  unfold number_to_string.
  destruct (Z.to_int n) as [[]|u]; cbn; discriminate.
Qed.

Lemma append_nonempty_l (a b : string) : a <> "" -> (a ++ b)%string <> "".
Proof. destruct a; [congruence|cbn; discriminate]. Qed.

Lemma append_cons_nonempty (a : string) (c : ascii) (b : string) :
  (a ++ String c b)%string <> "".
Proof. destruct a; cbn; discriminate. Qed.

Lemma concat_nonempty (sep x : string) (xs : list string) :
  x <> "" -> String.concat sep (x :: xs) <> "".
Proof.
  intros Hx. destruct xs; cbn; [assumption|].
  now apply append_nonempty_l.
Qed.

Lemma CodecOptions_toOptionValue_nonempty (c : CodecOptions) (s : string) :
  CodecOptions_toOptionValue c = Some s -> s <> "".
Proof.
  unfold CodecOptions_toOptionValue.
  destruct (filter _ (codec_value c)) as [|[key value] entries]; [discriminate|].
  intros H.
  match type of H with
  | Some ?x = Some s => assert (Hs : s = x) by congruence
  end.
  rewrite Hs. rewrite map_cons.
  apply concat_nonempty. apply append_cons_nonempty.
Qed.

Lemma toScrcpyOptionValue_truthy_nonempty (v : JsValue) :
  truthy v = true -> toScrcpyOptionValue v "-" <> "".
Proof.
  destruct v as [|[]|n|s|c]; cbn; try discriminate.
  - intros _. apply number_to_string_nonempty.
  - destruct s; cbn; [discriminate|]. intros _. discriminate.
  - intros _. destruct (CodecOptions_toOptionValue c) eqn:E; [|discriminate].
    now apply CodecOptions_toOptionValue_nonempty with c.
Qed.

(** X1: a truthy user value is rendered at the position of its key. *)
Theorem formatServerArguments_truthy_user_value
  (value : ScrcpyOptionsInit1_16) (key : OptionKey) :
  truthy (get value key) = true ->
  nth_error (formatServerArguments value) (key_index key) =
    Some (toScrcpyOptionValue (get value key) "-").
Proof.
  intros Ht. unfold formatServerArguments.
  rewrite nth_error_map, getArgumentOrder_index. cbn.
  unfold js_or. now rewrite Ht.
Qed.

(** X2: the argument list always has its fourteen positions and none of
    them is the empty string, whatever the user configuration holds. *)
Theorem formatServerArguments_no_empty_argument (value : ScrcpyOptionsInit1_16) :
  List.length (formatServerArguments value) = 14%nat /\
  Forall (fun argument => argument <> "") (formatServerArguments value).
Proof.
  split; [reflexivity|].
  unfold formatServerArguments. apply Forall_map, Forall_forall.
  intros key _. unfold js_or.
  destruct (truthy (get value key)) eqn:Ht.
  - now apply toScrcpyOptionValue_truthy_nonempty.
  - destruct key; cbn; discriminate.
Qed.

(** X3: an instance constructed as the base class never passes the
    'verbose' log level or the Initial (-2) orientation to the server. *)
Theorem base_instance_never_verbose_or_initial (value : ScrcpyOptionsInit1_16) :
  emitted (ScrcpyOptions1_16 ScrcpyOptions1_16_class value) Key_logLevel
    <> "verbose" /\
  emitted (ScrcpyOptions1_16 ScrcpyOptions1_16_class value)
          Key_lockVideoOrientation <> "-2".
Proof.
  rewrite !emitted_eq.
  destruct value as [l ms br mf o tf c sfm ctl di st sa co en].
  destruct l as [[]|], o as [[]|]; cbn; split; discriminate.
Qed.

(** X4: normalising twice is normalising once, and the normalisation
    changes neither the connection that is created nor the decoding mode. *)
Theorem constructor_idempotent (Adb : Type) (new_target : NewTarget)
  (value : ScrcpyOptionsInit1_16) (adb : Adb) (chunks : list bytes) :
  ScrcpyOptions1_16 new_target (ScrcpyOptions1_16 new_target value) =
    ScrcpyOptions1_16 new_target value /\
  createConnection (ScrcpyOptions1_16 new_target value) adb =
    createConnection value adb /\
  parseVideoStream (ScrcpyOptions1_16 new_target value) chunks =
    parseVideoStream value chunks.
Proof.
  destruct value as [l ms br mf o tf c sfm ctl di st sa co en].
  destruct new_target, l as [[]|], o as [[]|]; repeat split.
Qed.

(** X5: [toOptionValue] is [undefined] exactly when no entry of the
    object has a value. *)
Theorem toOptionValue_undefined_iff (c : CodecOptions) :
  CodecOptions_toOptionValue c = None <->
  Forall (fun entry => snd entry = None) (codec_value c).
Proof.
  unfold CodecOptions_toOptionValue. destruct c as [entries]. cbn.
  induction entries as [|[key [v|]] entries IH]; cbn.
  - split; auto.
  - split; [discriminate|]. intros H. inversion H. discriminate.
  - rewrite IH. split; intros H.
    + constructor; auto.
    + now inversion H.
Qed.

(** X6: entries whose value is [undefined] do not show in the encoding:
    dropping them from the object leaves [toOptionValue] the same. *)
Theorem toOptionValue_ignores_undefined (c : CodecOptions) :
  CodecOptions_toOptionValue
    (mkCodecOptions
       (filter (fun entry => match snd entry with Some _ => true | None => false end)
               (codec_value c))) =
  CodecOptions_toOptionValue c.
Proof.
  unfold CodecOptions_toOptionValue. destruct c as [entries]. cbn.
  set (defined := fun '(_, value) =>
                    match value : option Z with Some _ => true | None => false end).
  assert (Hf : forall l : list (string * option Z),
             filter defined
               (filter (fun entry => match snd entry with
                                     | Some _ => true | None => false end) l) =
             filter defined l).
  { induction l as [|[key [v|]] l IHl]; cbn; [reflexivity| |assumption].
    now rewrite IHl. }
  now rewrite Hf.
Qed.

(* ================================================================= *)
(** * Further properties of the struct layer *)

Lemma unsigned_be_snoc (bs : bytes) (b : byte) :
  unsigned_be (bs ++ [b]) = unsigned_be bs * 256 + Z_of_byte b.
Proof. unfold unsigned_be. now rewrite fold_left_app. Qed.

Lemma Z_of_byte_range (b : byte) : 0 <= Z_of_byte b < 256.
Proof.
  unfold Z_of_byte. pose proof (Byte.to_N_bounded b). lia.
Qed.

Lemma unsigned_be_range (bs : bytes) :
  0 <= unsigned_be bs < 2 ^ (8 * Z.of_nat (List.length bs)).
Proof.
  induction bs as [|b bs IH] using rev_ind; [cbn; lia|].
  rewrite unsigned_be_snoc, length_app. cbn [List.length].
  replace (8 * Z.of_nat (List.length bs + 1)) with
    (8 * Z.of_nat (List.length bs) + 8) by lia.
  rewrite Z.pow_add_r by lia.
  pose proof (Z_of_byte_range b). change (2 ^ 8) with 256. nia.
Qed.

Lemma unsigned_be_bytes_length (width : nat) (n : Z) :
  List.length (unsigned_be_bytes width n) = width.
Proof.
  revert n. induction width as [|width IH]; intros n; cbn; [reflexivity|].
  rewrite length_app, IH. cbn. lia.
Qed.

Lemma unsigned_be_bytes_value (width : nat) (n : Z) :
  unsigned_be (unsigned_be_bytes width n) = n mod 2 ^ (8 * Z.of_nat width).
Proof.
  revert n. induction width as [|width IH]; intros n.
  - cbn. now rewrite Z.mod_1_r.
  - cbn [unsigned_be_bytes]. rewrite unsigned_be_snoc, IH, Z_of_byte_of_Z.
    replace (8 * Z.of_nat (S width)) with (8 + 8 * Z.of_nat width) by lia.
    rewrite Z.pow_add_r by lia. change (2 ^ 8) with 256.
    rewrite Z.rem_mul_r by lia. lia.
Qed.

Lemma encode_integer_length (o : StructOptions.t) (width : nat) (n : Z) :
  List.length (encode_integer o width n) = width.
Proof.
  unfold encode_integer. destruct (StructOptions.littleEndian o);
    rewrite ?length_rev; apply unsigned_be_bytes_length.
Qed.

Lemma decode_unsigned_encode (o : StructOptions.t) (width : nat) (n : Z) :
  decode_unsigned o (encode_integer o width n) = n mod 2 ^ (8 * Z.of_nat width).
Proof.
  unfold decode_unsigned, encode_integer.
  destruct (StructOptions.littleEndian o); rewrite ?rev_involutive;
    apply unsigned_be_bytes_value.
Qed.

(** A signed field reads back any value of the two's complement range. *)
Lemma decode_signed_encode (o : StructOptions.t) (width : nat) (n : Z) :
  (0 < width)%nat ->
  - 2 ^ (8 * Z.of_nat width - 1) <= n < 2 ^ (8 * Z.of_nat width - 1) ->
  decode_signed o width (encode_integer o width n) = n.
Proof.
  intros Hw Hn.
  unfold decode_signed. rewrite decode_unsigned_encode.
  set (h := 2 ^ (8 * Z.of_nat width - 1)) in *.
  assert (Hh : 2 ^ (8 * Z.of_nat width) = 2 * h).
  { unfold h. rewrite <- Z.pow_succ_r by lia. f_equal. lia. }
  rewrite Hh.
  assert (Hpos : 0 < h) by (unfold h; apply Z.pow_pos_nonneg; lia).
  destruct (Z.neg_nonneg_cases n) as [Hneg|Hnn].
  - replace (n mod (2 * h)) with (n + 2 * h).
    + destruct (Z.ltb_spec (n + 2 * h) h); lia.
    + apply Z.mod_unique with (-1); lia.
  - rewrite Z.mod_small by lia.
    destruct (Z.ltb_spec n h); lia.
Qed.

Lemma read_app (n : nat) (a b : bytes) :
  List.length a = n -> read n (a ++ b) = (inr a, b).
Proof.
  intros <-. unfold read. rewrite length_app.
  replace (List.length a <=? List.length a + List.length b)%nat with true
    by (symmetry; apply Nat.leb_le; lia).
  rewrite firstn_app, Nat.sub_diag, firstn_all. cbn [firstn].
  rewrite app_nil_r.
  rewrite skipn_app, Nat.sub_diag, skipn_all. reflexivity.
Qed.

(** X7: a well-formed packet that is serialized and followed by any bytes
    is read back whole, and the bytes after it are left in the stream. *)
Theorem VideoPacket_round_trip (p : VideoPacket) (rest : bytes) :
  VideoPacket_wf p ->
  VideoPacket_deserialize (VideoPacket_serialize p ++ rest) = (inr p, rest).
Proof.
  intros (Hpts & Hsize & Hmax).
  unfold VideoPacket_deserialize, VideoPacket_serialize, sbind.
  rewrite <- !app_assoc.
  rewrite read_app by apply encode_integer_length.
  rewrite read_app by apply encode_integer_length.
  rewrite decode_unsigned_encode, decode_signed_encode;
    [|lia|change (8 * Z.of_nat 8 - 1) with 63; lia].
  change (8 * Z.of_nat 4) with 32. rewrite (Z.mod_small (size p)) by lia.
  rewrite read_app by (rewrite Hsize; symmetry; apply Nat2Z.id).
  unfold sret. destruct p; reflexivity.
Qed.

(** X8: a record that is read keeps [size == length(data)], its fields
    are within the wire types, and the stream is the twelve bytes of the
    fixed fields, the data and what is left. *)
Theorem VideoPacket_deserialize_invariant (s rest : bytes) (p : VideoPacket) :
  VideoPacket_deserialize s = (inr p, rest) ->
  VideoPacket_wf p /\
  s = firstn 12 s ++ data p ++ rest /\
  List.length s = (12 + List.length (data p) + List.length rest)%nat.
Proof.
  intros H.
  pose proof (VideoPacket_deserialize_returns _ _ _ H) as (Hsize & Hlen & Hskip).
  destruct (ends_before_record_dec s) as [He|He].
  { rewrite VideoPacket_deserialize_ended in H by assumption. discriminate. }
  rewrite VideoPacket_deserialize_ok in H by assumption.
  match type of H with
  | (inr ?q, _) = _ => assert (Hp : p = q) by congruence
  end.
  unfold ends_before_record in He.
  split; [|split].
  - unfold VideoPacket_wf. split; [|split].
    + rewrite Hp. cbn [pts]. unfold decode_signed, decode_unsigned. cbn [StructOptions.littleEndian StructOptions.default].
      pose proof (unsigned_be_range (firstn 8 s)) as Hr.
      rewrite length_firstn, Nat.min_l in Hr by lia.
      change (8 * Z.of_nat 8 - 1) with 63.
      change (8 * Z.of_nat 8) with 64 in Hr.
      destruct (Z.ltb_spec (unsigned_be (firstn 8 s)) (2 ^ 63)); lia.
    + exact Hsize.
    + rewrite Hp. cbn [size]. unfold decode_unsigned. cbn [StructOptions.littleEndian StructOptions.default].
      pose proof (unsigned_be_range (firstn 4 (skipn 8 s))) as Hr.
      rewrite length_firstn, length_skipn, Nat.min_l in Hr by lia.
      change (8 * Z.of_nat 4) with 32 in Hr. lia.
  - rewrite <- Hskip. symmetry. apply firstn_skipn.
  - exact Hlen.
Qed.

(** X9: deserialization fails exactly when the source ends before the
    record does, and then with the stream-ended error and nothing else. *)
Theorem VideoPacket_deserialize_fails_iff (s : bytes) :
  (ends_before_record s <->
   VideoPacket_deserialize s = (inl BufferedStreamEndedError, [])) /\
  (forall e rest, VideoPacket_deserialize s = (inl e, rest) ->
                  e = BufferedStreamEndedError) /\
  (~ ends_before_record s <->
   exists p rest, VideoPacket_deserialize s = (inr p, rest)).
Proof.
  split; [|split].
  - split; [apply VideoPacket_deserialize_ended|].
    intros H. now apply VideoPacket_deserialize_throws in H.
  - intros e rest H. now apply VideoPacket_deserialize_throws in H.
  - split.
    + intros H. rewrite VideoPacket_deserialize_ok by assumption. eauto.
    + intros (p & rest & H) He.
      rewrite VideoPacket_deserialize_ended in H by assumption. discriminate.
Qed.

(* ================================================================= *)
(** * Further properties of the video stream decoder *)

Section VideoStreamSequences.

Variable parse : bytes -> Throws SequenceParameterSet.

(** X10: a pull has one of three outcomes.  It enqueues exactly one chunk
    and has then taken one whole record, at least twelve bytes, from the
    source; or it closes the stream, enqueues nothing and the source had
    ended before a record; or it rejects, enqueues nothing and keeps the
    stored header.  It never enqueues and closes or rejects in one call. *)
Theorem pull_outcome (d : Decoder) :
  (exists chunk,
      enqueued (pull parse d) = [chunk] /\
      closed (pull parse d) = false /\
      thrown (pull parse d) = None /\
      (12 + List.length (stream (next (pull parse d)))
       <= List.length (stream d))%nat) \/
  (enqueued (pull parse d) = [] /\
   closed (pull parse d) = true /\
   thrown (pull parse d) = None /\
   header (next (pull parse d)) = header d) \/
  (exists e,
      enqueued (pull parse d) = [] /\
      closed (pull parse d) = false /\
      thrown (pull parse d) = Some e /\
      header (next (pull parse d)) = header d).
Proof.
  destruct (VideoPacket_deserialize (stream d)) as [[e|p] s'] eqn:Hd.
  - apply VideoPacket_deserialize_throws in Hd. destruct Hd as (_ & _ & He).
    right. left. rewrite (pull_ended parse d He). cbn. auto.
  - pose proof (VideoPacket_deserialize_returns _ _ _ Hd) as (_ & Hlen & _).
    destruct (Z.eq_dec (pts p) NoPts) as [Hpts|Hpts].
    + destruct (parse (data p)) as [e|sps] eqn:Hsps.
      * rewrite (pull_parse_error parse d p s' e Hd Hpts Hsps).
        destruct e as [|m]; cbn.
        -- right. left. auto.
        -- right. right. exists (Error m). auto.
      * left. rewrite (pull_configuration parse d p s' sps Hd Hpts Hsps). cbn.
        eexists. repeat split. lia.
    + left. rewrite (pull_frame parse d p s' Hd Hpts). cbn.
      eexists. repeat split. lia.
Qed.

(** X11: when the parameter-set parser throws an error, the pull rejects
    with that error: no Configuration chunk is enqueued, the stored header
    stays as it was, and the consumer sees the stream errored. *)
Theorem pull_parse_error_rejects (d : Decoder) (packet : VideoPacket)
  (rest : bytes) (message : string) :
  VideoPacket_deserialize (stream d) = (inr packet, rest) ->
  pts packet = NoPts ->
  parse (data packet) = inl (Error message) ->
  pull parse d =
    {| enqueued := [];
       closed := false;
       thrown := Some (Error message);
       next := {| header := header d; stream := rest |} |} /\
  forall fuel, read_all parse (S fuel) d = ([], Errored (Error message)).
Proof.
  intros Hd Hpts Hsps.
  pose proof (pull_parse_error parse d packet rest _ Hd Hpts Hsps) as Hp.
  cbn in Hp. split; [exact Hp|].
  intros fuel. cbn [read_all]. rewrite Hp. reflexivity.
Qed.

Lemma read_all_bound (fuel : nat) (d : Decoder) :
  (12 * List.length (fst (read_all parse fuel d)) <= List.length (stream d))%nat.
Proof.
  revert d. induction fuel as [|fuel IH]; intros d; [cbn; lia|].
  cbn [read_all].
  destruct (pull_outcome d) as
    [(chunk & He & Hc & Ht & Hlen)|[(He & Hc & Ht & _)|(e & He & Hc & Ht & _)]];
    rewrite Ht, ?Hc, He.
  - specialize (IH (next (pull parse d))).
    destruct (read_all parse fuel (next (pull parse d))) as [chunks status].
    cbn in *. lia.
  - cbn. lia.
  - cbn. lia.
Qed.

(** X12: reading a finite source always ends.  With more fuel than the
    source has bytes the stream is closed, or errored with an exception the
    parameter-set parser threw; and every chunk read took at least twelve
    bytes of the source. *)
Theorem read_all_finite_source (fuel : nat) (d : Decoder) :
  (List.length (stream d) < fuel)%nat ->
  (snd (read_all parse fuel d) = Closed \/
   exists (e : Exception) (b : bytes),
     snd (read_all parse fuel d) = Errored e /\ parse b = inl e /\
     e <> BufferedStreamEndedError) /\
  (12 * List.length (fst (read_all parse fuel d)) <= List.length (stream d))%nat.
Proof.
  intros Hlen. split; [now apply read_all_ends|apply read_all_bound].
Qed.

Lemma deserialize_all_cons (fuel : nat) (s rest : bytes) (p : VideoPacket) :
  VideoPacket_deserialize s = (inr p, rest) ->
  deserialize_all (S fuel) s = p :: deserialize_all fuel rest.
Proof. intros H. cbn [deserialize_all]. now rewrite H. Qed.

(** X13: when no record of the source is a parameter set, the decoder
    started without a header yields the data of every record, unmodified
    and in source order, and then closes. *)
Theorem read_all_frames_only (fuel : nat) (s : bytes) :
  (List.length s < fuel)%nat ->
  Forall (fun p => pts p <> NoPts) (deserialize_all fuel s) ->
  read_all parse fuel {| header := None; stream := s |} =
    (map (fun p => Frame (data p)) (deserialize_all fuel s), Closed).
Proof.
  revert s. induction fuel as [|fuel IH]; intros s Hlen Hall; [lia|].
  destruct (VideoPacket_deserialize s) as [[e|p] rest] eqn:Hd.
  - cbn [deserialize_all read_all]. rewrite Hd.
    apply VideoPacket_deserialize_throws in Hd. destruct Hd as (_ & _ & He).
    rewrite (pull_ended parse {| header := None; stream := s |} He).
    reflexivity.
  - rewrite (deserialize_all_cons fuel s rest p Hd) in Hall |- *.
    inversion Hall as [|? ? Hpts Hrest]; subst.
    pose proof (VideoPacket_deserialize_returns _ _ _ Hd) as (_ & Hl & _).
    cbn [read_all].
    rewrite (pull_frame parse {| header := None; stream := s |} p rest Hd Hpts).
    cbn. rewrite IH by (assumption || lia). reflexivity.
Qed.

(** X14: a parameter set followed by a frame.  Whatever header was stored
    before, the decoder yields the Configuration chunk and then one Frame
    chunk made of the parameter set's bytes and the frame's bytes, and goes
    on without a stored header. *)
Theorem read_all_header_then_frame_merged (d : Decoder)
  (p1 p2 : VideoPacket) (s1 s2 : bytes) (sps : SequenceParameterSet)
  (fuel : nat) :
  VideoPacket_deserialize (stream d) = (inr p1, s1) ->
  pts p1 = NoPts ->
  parse (data p1) = inr sps ->
  VideoPacket_deserialize s1 = (inr p2, s2) ->
  pts p2 <> NoPts ->
  read_all parse (S (S fuel)) d =
    (Configuration (configuration_of sps)
     :: Frame (data p1 ++ data p2)
     :: fst (read_all parse fuel {| header := None; stream := s2 |}),
     snd (read_all parse fuel {| header := None; stream := s2 |})).
Proof.
  intros Hd1 Hpts1 Hsps Hd2 Hpts2.
  cbn [read_all].
  rewrite (pull_configuration parse d p1 s1 sps Hd1 Hpts1 Hsps). cbn.
  rewrite (pull_frame parse {| header := Some (data p1); stream := s1 |}
             p2 s2 Hd2 Hpts2). cbn.
  destruct (read_all parse fuel {| header := None; stream := s2 |}).
  reflexivity.
Qed.

End VideoStreamSequences.

(** X15: records that are serialized one after the other are read back as
    the same records, in order. *)
Theorem deserialize_all_round_trip (ps : list VideoPacket) (fuel : nat) :
  Forall VideoPacket_wf ps ->
  (List.length ps < fuel)%nat ->
  deserialize_all fuel (List.concat (map VideoPacket_serialize ps)) = ps.
Proof.
  revert fuel. induction ps as [|p ps IH]; intros fuel Hwf Hfuel.
  - destruct fuel; [cbn in Hfuel; lia|]. reflexivity.
  - destruct fuel as [|fuel]; [cbn in Hfuel; lia|].
    inversion Hwf as [|? ? Hp Hps]; subst.
    cbn [map List.concat].
    rewrite (deserialize_all_cons fuel _ _ p (VideoPacket_round_trip p _ Hp)).
    rewrite IH by (assumption || (cbn in Hfuel; lia)). reflexivity.
Qed.

(* ================================================================= *)
(** * Properties of the scroll message layout *)

Lemma field_at_here (a c : bytes) (width : nat) :
  List.length a = width -> field_at 0 width (a ++ c) = a.
Proof.
  intros <-. unfold field_at. cbn [skipn].
  rewrite firstn_app, Nat.sub_diag, firstn_all. cbn [firstn].
  apply app_nil_r.
Qed.

Lemma field_at_skip (a c : bytes) (offset width : nat) :
  (List.length a <= offset)%nat ->
  field_at offset width (a ++ c) = field_at (offset - List.length a) width c.
Proof.
  intros H. unfold field_at.
  rewrite skipn_app, skipn_all2 by assumption. reflexivity.
Qed.

Ltac locate_field :=
  repeat (rewrite field_at_skip by (rewrite encode_integer_length; cbn; lia);
          rewrite encode_integer_length; cbn [Nat.sub]);
  first [ rewrite field_at_here by apply encode_integer_length
        | rewrite <- (app_nil_r (encode_integer _ _ _));
          rewrite field_at_here by apply encode_integer_length ].

(** X16: a scroll message is serialized to twenty-one bytes that hold, at
    offsets 0, 1, 5, 9, 11, 13 and 17, the type, the pointer position, the
    screen size and the two signed scroll amounts; the [buttons] field of
    the newer message type is not written. *)
Theorem serializeInjectScroll_layout (message : InjectScroll.t) :
  0 <= InjectScroll.type message < 2 ^ 8 ->
  0 <= InjectScroll.pointerX message < 2 ^ 32 ->
  0 <= InjectScroll.pointerY message < 2 ^ 32 ->
  0 <= InjectScroll.screenWidth message < 2 ^ 16 ->
  0 <= InjectScroll.screenHeight message < 2 ^ 16 ->
  - 2 ^ 31 <= InjectScroll.scrollX message < 2 ^ 31 ->
  - 2 ^ 31 <= InjectScroll.scrollY message < 2 ^ 31 ->
  let out := serializeInjectScrollControlMessage message in
  let unsigned := decode_unsigned StructOptions.default in
  let signed := decode_signed StructOptions.default 4 in
  List.length out = 21%nat /\
  unsigned (field_at 0 1 out) = InjectScroll.type message /\
  unsigned (field_at 1 4 out) = InjectScroll.pointerX message /\
  unsigned (field_at 5 4 out) = InjectScroll.pointerY message /\
  unsigned (field_at 9 2 out) = InjectScroll.screenWidth message /\
  unsigned (field_at 11 2 out) = InjectScroll.screenHeight message /\
  signed (field_at 13 4 out) = InjectScroll.scrollX message /\
  signed (field_at 17 4 out) = InjectScroll.scrollY message.
Proof.
  intros Ht Hx Hy Hw Hh Hsx Hsy out unsigned signed.
  unfold out, unsigned, signed, serializeInjectScrollControlMessage,
    ScrcpyInjectScrollControlMessage1_16_serialize.
  split; [rewrite !length_app, !encode_integer_length; reflexivity|].
  repeat split; locate_field;
    rewrite ?decode_unsigned_encode;
    try (apply Z.mod_small; assumption);
    apply decode_signed_encode; (lia || assumption).
Qed.

(* ================================================================= *)
(** * Further properties of the subprocess module *)




Section SubprocessSpawn.

Variable Adb : Type.
Variable AdbSubprocessProtocol : Type.
Variable DefaultOptions :
  list (AdbSubprocessProtocolConstructor Adb AdbSubprocessProtocol).



End SubprocessSpawn.

(* ================================================================= *)
(** * Properties of the direct sockets backend *)






(* ================================================================= *)
(** * The further theorems at concrete inputs *)

Lemma formatServerArguments_truthy_user_value_witness :
  nth_error
    (formatServerArguments
       (mkInit (Some Info) (Some 1080) None None (Some Landscape) (Some true)
               None None None None (Some true) None None (Some "enc")))
    (key_index Key_maxSize) = Some "1080".
Proof.
  apply (formatServerArguments_truthy_user_value
           (mkInit (Some Info) (Some 1080) None None (Some Landscape)
                   (Some true) None None None None (Some true) None None
                   (Some "enc")) Key_maxSize).
  reflexivity.
Defined.

Lemma VideoPacket_round_trip_witness :
  VideoPacket_deserialize
    (VideoPacket_serialize {| pts := -1; size := 2; data := [x67; x42] |}
     ++ frame_record) =
  (inr {| pts := -1; size := 2; data := [x67; x42] |}, frame_record).
Proof.
  apply (VideoPacket_round_trip
           {| pts := -1; size := 2; data := [x67; x42] |} frame_record).
  unfold VideoPacket_wf. cbn. lia.
Defined.

Lemma VideoPacket_deserialize_invariant_witness :
  VideoPacket_wf {| pts := 1; size := 3; data := [x65; x88; x84] |} /\
  frame_record ++ [x00] =
    firstn 12 (frame_record ++ [x00])
    ++ data {| pts := 1; size := 3; data := [x65; x88; x84] |} ++ [x00] /\
  List.length (frame_record ++ [x00]) =
    (12 + List.length (data {| pts := 1; size := 3; data := [x65; x88; x84] |})
     + List.length [x00])%nat.
Proof.
  apply (VideoPacket_deserialize_invariant (frame_record ++ [x00]) [x00]
           {| pts := 1; size := 3; data := [x65; x88; x84] |}).
  vm_compute. reflexivity.
Defined.

Lemma pull_parse_error_rejects_witness :
  thrown (pull failing_parse decoder_at_header) = Some (Error "Invalid data") /\
  enqueued (pull failing_parse decoder_at_header) = [].
Proof.
  destruct (pull_parse_error_rejects failing_parse decoder_at_header
              {| pts := -1; size := 2; data := [x67; x42] |} [] "Invalid data")
    as [Hp _]; [vm_compute; reflexivity | reflexivity | reflexivity |].
  rewrite Hp. split; reflexivity.
Defined.

Lemma read_all_finite_source_witness :
  (snd (read_all sample_parse 30
          {| header := None; stream := header_record ++ frame_record |}) = Closed \/
   exists (e : Exception) (b : bytes),
     snd (read_all sample_parse 30
            {| header := None; stream := header_record ++ frame_record |})
       = Errored e /\
     sample_parse b = inl e /\ e <> BufferedStreamEndedError) /\
  (12 * List.length
          (fst (read_all sample_parse 30
                  {| header := None; stream := header_record ++ frame_record |}))
   <= List.length
        (stream {| header := None; stream := header_record ++ frame_record |}))%nat.
Proof.
  apply (read_all_finite_source sample_parse 30
           {| header := None; stream := header_record ++ frame_record |}).
  cbn. lia.
Defined.

Lemma read_all_frames_only_witness :
  read_all sample_parse 31
    {| header := None; stream := frame_record ++ frame_record |} =
  (map (fun p => Frame (data p))
       (deserialize_all 31 (frame_record ++ frame_record)), Closed).
Proof.
  apply (read_all_frames_only sample_parse 31 (frame_record ++ frame_record)).
  - cbn. lia.
  - assert (E : deserialize_all 31 (frame_record ++ frame_record) =
                [ {| pts := 1; size := 3; data := [x65; x88; x84] |};
                  {| pts := 1; size := 3; data := [x65; x88; x84] |} ])
      by (vm_compute; reflexivity).
    rewrite E. repeat constructor; cbn; discriminate.
Defined.

Lemma read_all_header_then_frame_merged_witness :
  read_all sample_parse 3
    {| header := Some [x00]; stream := header_record ++ frame_record |} =
  (Configuration (configuration_of sample_sps)
   :: Frame (data {| pts := -1; size := 2; data := [x67; x42] |}
             ++ data {| pts := 1; size := 3; data := [x65; x88; x84] |})
   :: fst (read_all sample_parse 1 {| header := None; stream := [] |}),
   snd (read_all sample_parse 1 {| header := None; stream := [] |})).
Proof.
  apply (read_all_header_then_frame_merged sample_parse
           {| header := Some [x00]; stream := header_record ++ frame_record |}
           {| pts := -1; size := 2; data := [x67; x42] |}
           {| pts := 1; size := 3; data := [x65; x88; x84] |}
           frame_record [] sample_sps 1).
  - vm_compute. reflexivity.
  - reflexivity.
  - reflexivity.
  - vm_compute. reflexivity.
  - cbn. discriminate.
Defined.

Lemma deserialize_all_round_trip_witness :
  deserialize_all 3
    (List.concat
       (map VideoPacket_serialize
            [ {| pts := -1; size := 2; data := [x67; x42] |};
              {| pts := 1; size := 3; data := [x65; x88; x84] |} ])) =
  [ {| pts := -1; size := 2; data := [x67; x42] |};
    {| pts := 1; size := 3; data := [x65; x88; x84] |} ].
Proof.
  apply (deserialize_all_round_trip
           [ {| pts := -1; size := 2; data := [x67; x42] |};
             {| pts := 1; size := 3; data := [x65; x88; x84] |} ] 3).
  - repeat constructor; cbn; lia.
  - cbn. lia.
Defined.

Lemma serializeInjectScroll_layout_witness :
  List.length
    (serializeInjectScrollControlMessage
       (InjectScroll.mk 3 100 200 1080 1920 (-1) 1 0)) = 21%nat /\
  decode_signed StructOptions.default 4
    (field_at 13 4
       (serializeInjectScrollControlMessage
          (InjectScroll.mk 3 100 200 1080 1920 (-1) 1 0))) = -1.
Proof.
  destruct (serializeInjectScroll_layout
              (InjectScroll.mk 3 100 200 1080 1920 (-1) 1 0))
    as (Hlen & _ & _ & _ & _ & _ & Hsx & _);
    [cbn; lia | cbn; lia | cbn; lia | cbn; lia | cbn; lia | cbn; lia
    | cbn; lia |].
  split; [exact Hlen | exact Hsx].
Defined.

(** The bytes of a scroll message. *)
Example serializeInjectScroll_bytes :
  serializeInjectScrollControlMessage
    (InjectScroll.mk 3 100 200 1080 1920 (-1) 1 0) =
  [ x03; x00; x00; x00; x64; x00; x00; x00; xc8; x04; x38; x07; x80;
    xff; xff; xff; xff; x00; x00; x00; x01 ].
Proof. vm_compute. reflexivity. Qed.

Example direct_sockets_serials :
  AdbDirectSocketsBackend.serial
    (AdbDirectSocketsBackend.new "192.168.1.2" None None) = "192.168.1.2:5555" /\
  AdbDirectSocketsBackend.serial
    (AdbDirectSocketsBackend.new "::1" (Some 5037) (Some "emulator")) = "::1:5037".
Proof. split; reflexivity. Qed.
